(** * hgsvg: variants_bed_to_vcf.py

    A shallow embedding of [sv/utils/variants_bed_to_vcf.py], the script that
    turns a table of structural-variant calls into a VCF file, and the
    properties of its field derivation.

    Modelling conventions.
    - A table cell is a Python [str], [int] or [float] object ([cell]).
      Strings are byte strings: [len] is the number of bytes and [upper]
      raises the ASCII letters, which is what Python does on ASCII text.
    - A data frame is a list of column names and a list of rows; a row maps
      column names to cells.  [calls[name] = calls.apply(f, axis=1)] runs
      [f] on the rows from first to last and stops at the first exception.
      The model follows pandas on tables that have a row; on an empty table
      it assigns empty columns.
    - Exceptions are values of [exn]; a computation that may raise returns a
      [result].  Comparisons between [str] and a number raise [TypeError],
      as in Python 3.
    - Arithmetic on a whole column ([calls["tStart"] + 1]) is 64-bit and
      wraps around; arithmetic on the objects of one row is unbounded.
    - Files are reached through an environment [Env] (what [pd.read_table]
      and [pysam.FastaFile] return for a path, and the date); the run leaves
      a log of the files it touched. *)

From Stdlib Require Import ZArith String Ascii DecimalString Floats.
From stdpp Require Import gmap strings list.

Open Scope Z_scope.

(** ** Python strings *)

Module PyStr.

Definition dq : string := String (ascii_of_nat 34) EmptyString.
Definition tab : string := String (ascii_of_nat 9) EmptyString.
Definition lf : string := String (ascii_of_nat 10) EmptyString.

(** [c.upper()] on one ASCII byte. *)
Definition upper_ascii (c : ascii) : ascii :=
  let n := nat_of_ascii c in
  if ((97 <=? n)%nat && (n <=? 122)%nat)%bool then ascii_of_nat (n - 32) else c.

(** [s.upper()] *)
Fixpoint upper (s : string) : string :=
  match s with
  | EmptyString => EmptyString
  | String c s' => String (upper_ascii c) (upper s')
  end.

(** [s[a:b]] for [0 <= a <= b]. *)
Definition slice (a b : nat) (s : string) : string := substring a (b - a) s.

(** [str(z)] for an [int]. *)
Definition of_int (z : Z) : string := NilZero.string_of_int (Z.to_int z).

(** [sep.join(l)] *)
Definition join (sep : string) (l : list string) : string := String.concat sep l.

End PyStr.

(** ** Python objects held in a table *)

Inductive cell : Type :=
  | CStr (s : string)
  | CInt (z : Z)
  | CFloat (f : float).

Inductive exn : Type :=
  | KeyError (key : string)
  | TypeError
  | ValueError
  | AttributeError
  | IndexError
  | OverflowError
  | IOError (path : string)
  | Exception (msg : string).

Inductive result (A : Type) : Type :=
  | Ok (a : A)
  | Raise (e : exn).
Arguments Ok {A} a.
Arguments Raise {A} e.

Definition bind {A B} (m : result A) (k : A → result B) : result B :=
  match m with
  | Ok a => k a
  | Raise e => Raise e
  end.

Notation "'let*' x ':=' m 'in' k" := (bind m (fun x => k))
  (at level 10, x name, m at level 200, k at level 200).

(** [for x in l: f(x)], collecting the results; the first exception ends it. *)
Fixpoint mapM {A B} (f : A → result B) (l : list A) : result (list B) :=
  match l with
  | [] => Ok []
  | x :: l' => let* y := f x in let* ys := mapM f l' in Ok (y :: ys)
  end.

Definition wrap64 (z : Z) : Z := (z + 2 ^ 63) mod 2 ^ 64 - 2 ^ 63.

(** [float(z)]: the nearest double, [OverflowError] beyond the largest one. *)
Definition float_of_int (z : Z) : result float :=
  let f := SF2Prim (binary_normalize prec emax z 0 false) in
  if PrimFloat.eqb (PrimFloat.abs f) infinity then Raise OverflowError else Ok f.

Module Py.

(** [a + b] *)
Definition add (a b : cell) : result cell :=
  match a, b with
  | CInt x, CInt y => Ok (CInt (x + y))
  | CFloat x, CFloat y => Ok (CFloat (x + y))
  | CFloat x, CInt y => let* fy := float_of_int y in Ok (CFloat (x + fy))
  | CInt x, CFloat y => let* fx := float_of_int x in Ok (CFloat (fx + y))
  | CStr x, CStr y => Ok (CStr (x +:+ y))
  | _, _ => Raise TypeError
  end.

(** [a - b] *)
Definition sub (a b : cell) : result cell :=
  match a, b with
  | CInt x, CInt y => Ok (CInt (x - y))
  | CFloat x, CFloat y => Ok (CFloat (x - y))
  | CFloat x, CInt y => let* fy := float_of_int y in Ok (CFloat (x - fy))
  | CInt x, CFloat y => let* fx := float_of_int x in Ok (CFloat (fx - y))
  | _, _ => Raise TypeError
  end.

(** [a > n] for an [int] literal [n]. *)
Definition gt_int (a : cell) (n : Z) : result bool :=
  match a with
  | CInt x => Ok (n <? x)
  | CFloat x => let* fn := float_of_int n in Ok (PrimFloat.ltb fn x)
  | CStr _ => Raise TypeError
  end.

(** [a == s] for a [str] literal [s]. *)
Definition eq_str (a : cell) (s : string) : bool :=
  match a with
  | CStr x => bool_decide (x = s)
  | _ => false
  end.

(** [len(a)] *)
Definition len (a : cell) : result Z :=
  match a with
  | CStr s => Ok (Z.of_nat (String.length s))
  | _ => Raise TypeError
  end.

(** [a.upper()] *)
Definition upper (a : cell) : result string :=
  match a with
  | CStr s => Ok (PyStr.upper s)
  | _ => Raise AttributeError
  end.

(** [a[0:n]] *)
Definition prefix (n : nat) (a : cell) : result cell :=
  match a with
  | CStr s => Ok (CStr (PyStr.slice 0 n s))
  | _ => Raise TypeError
  end.

End Py.

(** ** The reference genome *)

(** Modelled from the spec: [pysam.FastaFile.fetch] is an external library
    and is not part of the repository.  The spec gives its contract:
    [fetch(contig, start, end)] returns the bases of the half-open, 0-based
    interval and fails when the contig is unknown or the interval is out of
    bounds. *)
Definition fetch (genome : gmap string string) (contig start stop : cell)
    : result string :=
  match contig, start, stop with
  | CStr c, CInt s, CInt e =>
      match genome !! c with
      | None => Raise (KeyError c)
      | Some seq =>
          if ((0 <=? s) && (s <=? e) && (e <=? Z.of_nat (String.length seq)))%bool
          then Ok (PyStr.slice (Z.to_nat s) (Z.to_nat e) seq)
          else Raise ValueError
      end
  | _, _, _ => Raise TypeError
  end.

(** ** The helper functions of the script *)

Definition GetGenotype (gt : cell) : string :=
  if Py.eq_str gt "HAP0" then "1|0"
  else if Py.eq_str gt "HAP1" then "0|1"
  else if Py.eq_str gt "HOM" then "1|1"
  else "1/1".

Definition GetType (val : cell) : result string :=
  let* n := Py.len val in
  if 3 <? n then let* p := Py.prefix 3 val in Py.upper p
  else Ok "NONE"%string.

Definition GetPass (val : cell) : result string :=
  let* b := Py.gt_int val 3 in
  if b then Ok "PASS"%string else Ok "FAIL"%string.

Definition GetSeq (val : cell) : cell :=
  match val with
  | CFloat _ => CStr "NA"
  | _ => val
  end.

(** ** Data frames *)

Record Frame : Type := { columns : list string; rows : list (gmap string cell) }.

(** [name in calls] *)
Definition has_col (name : string) (df : Frame) : bool :=
  bool_decide (name ∈ columns df).

Definition add_col (name : string) (df : Frame) : list string :=
  if has_col name df then columns df else columns df ++ [name].

(** [row[name]] *)
Definition item (row : gmap string cell) (name : string) : result cell :=
  match row !! name with
  | Some c => Ok c
  | None => Raise (KeyError name)
  end.

(** [calls[name] = calls.apply(f, axis=1)] *)
Definition assign (name : string) (f : gmap string cell → result cell)
    (df : Frame) : result Frame :=
  let* rows' := mapM (fun row => let* v := f row in Ok (<[name := v]> row)) (rows df) in
  Ok {| columns := add_col name df; rows := rows' |}.

(** [calls[name] = v] for one object [v] *)
Definition assign_value (name : string) (v : cell) (df : Frame) : Frame :=
  {| columns := add_col name df; rows := map (insert name v) (rows df) |}.

(** [calls[name]], the column as a series *)
Definition column (name : string) (df : Frame) : result (list cell) :=
  if has_col name df then mapM (fun row => item row name) (rows df)
  else Raise (KeyError name).

(** [calls[name] = series] *)
Definition assign_series (name : string) (series : list cell) (df : Frame) : Frame :=
  {| columns := add_col name df;
     rows := zip_with (fun row v => <[name := v]> row) (rows df) series |}.

(** [series + 1] on a column: 64-bit integers wrap, doubles add. *)
Definition series_succ (c : cell) : result cell :=
  match c with
  | CInt z => Ok (CInt (wrap64 (z + 1)))
  | CFloat f => Ok (CFloat (f + 1))
  | CStr _ => Raise TypeError
  end.

(** [calls[[names]]]: the rows restricted to [names], in that order. *)
Definition select (names : list string) (df : Frame) : result (list (list cell)) :=
  match filter (fun n => ¬ n ∈ columns df) names with
  | missing :: _ => Raise (KeyError missing)
  | [] => mapM (fun row => mapM (item row) names) (rows df)
  end.

(** ** Reference and alternate alleles of an indel *)

Definition GetAltSeq (row : gmap string cell) (genome : gmap string string)
    : result string :=
  let* svSeq := item row "svSeq" in
  let seq := GetSeq svSeq in
  let* svType := item row "svType" in
  if Py.eq_str svType "insertion" then
    let* chrom := item row "#chrom" in
    let* start := item row "origTStart" in
    let* start' := item row "origTStart" in
    let* stop := Py.add start' (CInt 1) in
    let* bases := fetch genome chrom start stop in
    let refPrefix := PyStr.upper bases in
    let* SEQ := Py.upper seq in
    Ok (refPrefix +:+ SEQ)
  else
    let* chrom := item row "#chrom" in
    let* start' := item row "origTStart" in
    let* start := Py.sub start' (CInt 1) in
    let* stop := item row "origTStart" in
    let* bases := fetch genome chrom start stop in
    let refPrefix := PyStr.upper bases in
    Ok refPrefix.

Definition GetRefSeq (row : gmap string cell) (genome : gmap string string)
    : result string :=
  let refLen := CInt 1 in
  let* refPos := item row "origTStart" in
  let* svType := item row "svType" in
  let* refLen :=
    if Py.eq_str svType "deletion"
    then let* svLen := item row "svLen" in Py.add svLen (CInt 1)
    else Ok refLen in
  let* chrom := item row "#chrom" in
  let* stop := Py.add refPos refLen in
  let* bases := fetch genome chrom refPos stop in
  Ok (PyStr.upper bases).

(** ** The world outside the script *)

(** What the run finds outside: the table [pd.read_table] returns for a path,
    the genome [pysam.FastaFile] opens for a path, today's date as
    [strftime("%Y%m%d")] prints it, and two library functions that are used
    but not modelled: how Python prints a [float], and whether
    [pd.to_numeric] can read a string as a number. *)
Record Env : Type := {
  tables : gmap string Frame;
  fastas : gmap string (gmap string string);
  today : string;
  float_repr : float → string;
  numeric_literal : string → bool
}.

(** The files a run touches, in order. *)
Inductive event : Type :=
  | ReadTable (path : string)
  | OpenFasta (path : string)
  | WriteFile (path : string) (text : string).

(** The ten selected columns under their VCF names, and the selected rows. *)
Record Table : Type := { header : list string; body : list (list cell) }.

Section Conversion.

Variable env : Env.

(** [str(c)] *)
Definition str (c : cell) : string :=
  match c with
  | CStr s => s
  | CInt z => PyStr.of_int z
  | CFloat f => float_repr env f
  end.

(** [pd.to_numeric(calls[name])], whose result the script drops: it can only
    raise.  Numbers pass; a string passes when it reads as a number. *)
Definition to_numeric (name : string) (df : Frame) : result unit :=
  let* series := column name df in
  if forallb (fun c => match c with CStr s => numeric_literal env s | _ => true end) series
  then Ok tt else Raise ValueError.

(** Lines 68-82: the type selects the FORMAT keys, or is refused. *)
Definition variant_format (variant_type : string) : result (list string) :=
  if bool_decide (variant_type = "sv") then Ok ["GT"%string]
  else if bool_decide (variant_type = "indel") then Ok ["GT"%string]
  else if bool_decide (variant_type = "inversion") then Ok [""%string]
  else Raise (Exception ("Unsupported variant type: " +:+ variant_type)).

(** Lines 88-102: the constant columns, the filter, the length of the
    variant sequence, and the check that the coordinates are numbers. *)
Definition prepare_calls (sample : string) (calls : Frame) : result Frame :=
  let calls := assign_value "sample_name" (CStr sample) calls in
  let calls := assign_value "call_id" (CStr ".") calls in
  let calls := assign_value "quality" (CStr "30") calls in
  let* calls :=
    if has_col "nAlt" calls
    then assign "filter"
           (fun row => let* nAlt := item row "nAlt" in
                       let* p := GetPass nAlt in Ok (CStr p)) calls
    else Ok (assign_value "filter" (CStr "PASS") calls) in
  let* calls :=
    assign "svLen"
      (fun row => let* svSeq := item row "svSeq" in
                  let* n := Py.len (GetSeq svSeq) in Ok (CInt n)) calls in
  let* _ := to_numeric "tStart" calls in
  let* _ := to_numeric "tEnd" calls in
  Ok calls.

(** [[(fields[i], fields[i+1]) for i in range(0, len(fields), 2)]] *)
Fixpoint extra_keys (fields : list string) : result (list (string * string)) :=
  match fields with
  | [] => Ok []
  | [_] => Raise IndexError
  | k :: c :: rest => let* ps := extra_keys rest in Ok ((k, c) :: ps)
  end.

(** [";".join(["=".join(map(str, (key, row[col]))) for key, col in keys])] *)
Definition info_of_keys (keys : list (string * string)) (row : gmap string cell)
    : result cell :=
  let* items := mapM (fun kc => let* v := item row (snd kc) in
                                Ok (fst kc +:+ "=" +:+ str v)) keys in
  Ok (CStr (PyStr.join ";" items)).

(** [";".join(["=".join(map(str, item)) for item in ((key, row[col]), ...)])]:
    the tuple of pairs is built first, so every column is read before any
    text is made. *)
Definition info_of_items (keys : list (string * string)) (row : gmap string cell)
    : result cell :=
  let* items := mapM (fun kc => let* v := item row (snd kc) in Ok (fst kc, v)) keys in
  Ok (CStr (PyStr.join ";" (map (fun kv => fst kv +:+ "=" +:+ str (snd kv)) items))).

(** [calls["genotype"]] of the sv and indel branches. *)
Definition assign_genotype (calls : Frame) : result Frame :=
  if has_col "hap" calls
  then assign "genotype"
         (fun row => let* hap := item row "hap" in Ok (CStr (GetGenotype hap))) calls
  else
    let* tEnd := column "tEnd" calls in
    Ok (assign_series "genotype" (replicate (length tEnd) (CStr "./.")) calls).

(** Lines 105-114: the reference base at the start, the positions and the
    abbreviated type. *)
Definition position_calls (reference : gmap string string) (calls : Frame)
    : result Frame :=
  let* calls :=
    assign "reference"
      (fun row => let* chrom := item row "#chrom" in
                  let* start := item row "tStart" in
                  let* start' := item row "tStart" in
                  let* stop := Py.add start' (CInt 1) in
                  let* bases := fetch reference chrom start stop in
                  Ok (CStr (PyStr.upper bases))) calls in
  let* tStart := column "tStart" calls in
  let calls := assign_series "origTStart" tStart calls in
  let* tStart := column "tStart" calls in
  let* tStart := mapM series_succ tStart in
  let calls := assign_series "tStart" tStart calls in
  let* tStart := column "tStart" calls in
  let* POS := mapM series_succ tStart in
  let calls := assign_series "POS" POS calls in
  let* chrom := column "#chrom" calls in
  let calls := assign_series "CHROM" chrom calls in
  assign "svShort"
    (fun row => let* svType := item row "svType" in
                let* t := GetType svType in Ok (CStr t)) calls.

(** Line 123: ["<%s>" % row.svType[:3].upper()] *)
Definition symbolic_alt (row : gmap string cell) : result cell :=
  let* svType := item row "svType" in
  let* p := Py.prefix 3 svType in
  let* t := Py.upper p in
  Ok (CStr ("<" +:+ t +:+ ">")).

Definition sv_info_keys : list (string * string) :=
  [("END", "tEnd"); ("SVTYPE", "svShort"); ("SVLEN", "svLen");
   ("CONTIG", "qName"); ("CONTIG_START", "qStart");
   ("CONTIG_END", "qEnd"); ("SEQ", "svSeq")]%string.

Definition indel_info_items : list (string * string) :=
  [("END", "tEnd"); ("SVTYPE", "svType"); ("SVLEN", "svLen");
   ("SAMPLES", "sample_name"); ("SEQ", "svSeq")]%string.

Definition inversion_info_items : list (string * string) :=
  [("END", "tEnd"); ("SVTYPE", "svType"); ("SVLEN", "svLen");
   ("SAMPLES", "sample_name")]%string.

(** Lines 116-135: the branch of type [sv]. *)
Definition sv_calls (fmt fields : list string) (calls : Frame) : result Frame :=
  let infoKeys := sv_info_keys in
  let* infoKeys :=
    if (0 <? length fields)%nat
    then let* extraKeys := extra_keys fields in Ok (infoKeys ++ extraKeys)
    else Ok infoKeys in
  let* calls := assign "alt" symbolic_alt calls in
  let* calls := assign "info" (info_of_keys infoKeys) calls in
  let calls := assign_value "format" (CStr (PyStr.join ":" fmt)) calls in
  assign_genotype calls.

(** Lines 137-159: the branch of type [indel]. *)
Definition indel_calls (fmt : list string) (reference : gmap string string)
    (calls : Frame) : result Frame :=
  let* calls :=
    assign "reference"
      (fun row => let* s := GetRefSeq row reference in Ok (CStr s)) calls in
  let* calls :=
    assign "alt"
      (fun row => let* s := GetAltSeq row reference in Ok (CStr s)) calls in
  let calls := assign_value "format" (CStr (PyStr.join ":" fmt)) calls in
  let* calls := assign_genotype calls in
  assign "info" (info_of_items indel_info_items) calls.

(** Lines 160-173: the branch of type [inversion]. *)
Definition inversion_calls (calls : Frame) : result Frame :=
  let calls := assign_value "alt" (CStr "<INV>") calls in
  assign "info" (info_of_items inversion_info_items) calls.

(** Lines 105-173. *)
Definition derive_calls (variant_type : string) (fmt fields : list string)
    (reference : gmap string string) (calls : Frame) : result Frame :=
  let* calls := position_calls reference calls in
  if bool_decide (variant_type = "sv") then sv_calls fmt fields calls
  else if bool_decide (variant_type = "indel") then indel_calls fmt reference calls
  else if bool_decide (variant_type = "inversion") then inversion_calls calls
  else Ok calls.

(** The renaming of line 175: [rename_axis] with a mapping and [axis=1]
    renames the column labels, as [rename] does; that is the pandas the
    script was written for. *)
Definition rename_axis (sample name : string) : string :=
  if bool_decide (name = "#chrom") then "#CHROM"
  else if bool_decide (name = "tStart") then "POS"
  else if bool_decide (name = "reference") then "REF"
  else if bool_decide (name = "call_id") then "ID"
  else if bool_decide (name = "quality") then "QUAL"
  else if bool_decide (name = "info") then "INFO"
  else if bool_decide (name = "alt") then "ALT"
  else if bool_decide (name = "filter") then "FILTER"
  else if bool_decide (name = "format") then "FORMAT"
  else if bool_decide (name = "genotype") then sample
  else name.

Definition selected : list string :=
  ["#chrom"; "tStart"; "call_id"; "reference"; "alt"; "quality"; "filter";
   "info"; "format"; "genotype"]%string.

(** Line 175: the ten output columns, renamed. *)
Definition select_renamed (sample : string) (calls : Frame) : result Table :=
  let* body := select selected calls in
  Ok {| header := map (rename_axis sample) selected; body := body |}.

(** Lines 66-175: the table [simple_calls] as the run computes it, with the
    files touched on the way.  [fields] is the global [args.fields]. *)
Definition simple_calls
    (bed_filename reference_filename sample variant_type : string)
    (fields : list string) : result Table * list event :=
  match variant_format variant_type with
  | Raise e => (Raise e, [])
  | Ok fmt =>
      match tables env !! bed_filename with
      | None => (Raise (IOError bed_filename), [ReadTable bed_filename])
      | Some calls =>
          match prepare_calls sample calls with
          | Raise e => (Raise e, [ReadTable bed_filename])
          | Ok calls =>
              let log := [ReadTable bed_filename; OpenFasta reference_filename] in
              match fastas env !! reference_filename with
              | None => (Raise (IOError reference_filename), log)
              | Some reference =>
                  (let* calls := derive_calls variant_type fmt fields reference calls in
                   select_renamed sample calls, log)
              end
          end
      end
  end.

(** Modelled from the spec: [DataFrame.to_csv] is pandas code and is not
    part of the repository.  The spec gives what it writes here: a
    tab-separated header row, then one tab-separated row per record, without
    an index column. *)
Definition to_csv (t : Table) : list string :=
  PyStr.join PyStr.tab (header t)
    :: map (fun row => PyStr.join PyStr.tab (map str row)) (body t).

(** Lines 179-191: the lines written before the table. *)
Definition preamble : list string :=
  let info (id type description : string) : string :=
    "##INFO=<ID=" +:+ id +:+ ",Number=1,Type=" +:+ type +:+ ",Description="
      +:+ PyStr.dq +:+ description +:+ PyStr.dq +:+ ">" in
  [ "##fileformat=VCFv4.2";
    "##fileDate=" +:+ today env;
    "##source=SMRT_SV";
    info "SAMPLES" "String" "Samples with the given variant";
    info "SVTYPE" "String" "Type of structural variant";
    info "SVLEN" "Integer" "Difference in length between REF and ALT alleles";
    info "END" "Integer" "End coordinate of this variant";
    info "CONTIG" "String" "Name of alternate assembly contig";
    info "CONTIG_START" "Integer"
      "Start coordinate of this variant in the alternate assembly contig";
    info "CONTIG_END" "Integer"
      "End coordinate of this variant in the alternate assembly contig";
    info "REPEAT_TYPE" "String" "Repeat classification of variant content";
    info "SEQ" "String" "Sequence associated with variant";
    "##FORMAT=<ID=GT,Number=1,Type=String,Description=" +:+ PyStr.dq
      +:+ "Genotype" +:+ PyStr.dq +:+ ">" ]%string.

(** Lines 178-192: every line of the file, in the order written. *)
Definition vcf_lines (t : Table) : list string := preamble ++ to_csv t.

(** The text of a file whose lines each end in a line feed. *)
Definition unlines (lines : list string) : string :=
  foldr (fun l text => l +:+ PyStr.lf +:+ text) EmptyString lines.

(** The whole run: lines 66-175, then the file of lines 178-192.  Beside
    the outcome the run returns the files it touched, in order. *)
Definition convert_bed_to_vcf
    (bed_filename reference_filename vcf_filename sample variant_type : string)
    (fields : list string) : result unit * list event :=
  match simple_calls bed_filename reference_filename sample variant_type fields with
  | (Raise e, log) => (Raise e, log)
  | (Ok t, log) => (Ok tt, log ++ [WriteFile vcf_filename (unlines (vcf_lines t))])
  end.

End Conversion.

(** ** The words of the specification *)

(** The position of each VCF column in a row of [simple_calls]. *)
Module Col.
Definition CHROM : nat := 0.
Definition POS : nat := 1.
Definition ID : nat := 2.
Definition REF : nat := 3.
Definition ALT : nat := 4.
Definition QUAL : nat := 5.
Definition FILTER : nat := 6.
Definition INFO : nat := 7.
Definition FORMAT : nat := 8.
Definition GENOTYPE : nat := 9.
End Col.

(** "The value is at most 3", for a count held in a cell. *)
Definition at_most_3 (v : cell) : Prop :=
  match v with
  | CInt z => z ≤ 3
  | CFloat f => PrimFloat.leb f 3 = true
  | CStr _ => False
  end.

(** The header row of a VCF file with one sample. *)
Definition header_row (sample : string) : string :=
  PyStr.join PyStr.tab
    ["#CHROM"; "POS"; "ID"; "REF"; "ALT"; "QUAL"; "FILTER"; "INFO"; "FORMAT"; sample].

(** A metadata line of a VCF file. *)
Definition is_meta (line : string) : bool := String.prefix "##" line.

(** The row after lines 88-102. *)
Definition prepared (sample filt : string) (n : Z) (r : gmap string cell)
    : gmap string cell :=
  <["svLen" := CInt n]> (<["filter" := CStr filt]> (<["quality" := CStr "30"]>
    (<["call_id" := CStr "."]> (<["sample_name" := CStr sample]> r)))).

(** The row after lines 105-114. *)
Definition positioned (bases : string) (chrom : string) (z : Z) (short : string)
    (r : gmap string cell) : gmap string cell :=
  <["svShort" := CStr short]> (<["CHROM" := CStr chrom]>
    (<["POS" := CInt (wrap64 (wrap64 (z + 1) + 1))]>
      (<["tStart" := CInt (wrap64 (z + 1))]> (<["origTStart" := CInt z]>
        (<["reference" := CStr (PyStr.upper bases)]> r))))).

(** C1 as the specification states it: the POS column holds the raw start
    plus two. *)
Definition pos_is_start_plus_two (env : Env) (bed ref sample vt : string)
    (fields : list string) : Prop :=
  ∀ t events calls i (r : gmap string cell) z,
    simple_calls env bed ref sample vt fields = (Ok t, events) →
    tables env !! bed = Some calls → rows calls !! i = Some r →
    r !! "tStart" = Some (CInt z) →
    ∃ line, body t !! i = Some line ∧ line !! Col.POS = Some (CInt (z + 2)).

(** C2 as the specification states it: nine metadata lines, then the header
    row, then one row per record. *)
Definition nine_metadata_lines (env : Env) (bed ref vcf sample vt : string)
    (fields : list string) : Prop :=
  ∀ events,
    convert_bed_to_vcf env bed ref vcf sample vt fields = (Ok tt, events) →
    ∃ t pre data,
      events = [ReadTable bed; OpenFasta ref;
                WriteFile vcf (unlines (vcf_lines env t))] ∧
      vcf_lines env t = pre ++ header_row sample :: data ∧
      length pre = 9%nat ∧ Forall (fun l => is_meta l = true) pre ∧
      length data = length (body t).

(** C4 as the specification states it: the ALT allele of an insertion starts
    with the reference base just before [origTStart]. *)
Definition insertion_alt_from_preceding_base (env : Env) (bed ref sample : string)
    (fields : list string) : Prop :=
  ∀ t events calls i (r : gmap string cell) reference chrom contig z seq a,
    simple_calls env bed ref sample "indel" fields = (Ok t, events) →
    tables env !! bed = Some calls → rows calls !! i = Some r →
    r !! "svType" = Some (CStr "insertion") →
    fastas env !! ref = Some reference →
    r !! "#chrom" = Some (CStr chrom) → reference !! chrom = Some contig →
    r !! "tStart" = Some (CInt z) → r !! "svSeq" = Some (CStr seq) →
    String.get (Z.to_nat (z - 1)) contig = Some a →
    ∃ line, body t !! i = Some line ∧
      line !! Col.ALT = Some (CStr (String (PyStr.upper_ascii a) (PyStr.upper seq))).

(** C7 as the specification states it, for the table without a haplotype
    column: every record's genotype is ./., whatever the variant type and
    whatever else the table holds. *)
Definition missing_call_without_hap (env : Env) (bed ref sample vt : string)
    (fields : list string) : Prop :=
  ∀ t events calls i line,
    simple_calls env bed ref sample vt fields = (Ok t, events) →
    tables env !! bed = Some calls → has_col "hap" calls = false →
    body t !! i = Some line →
    line !! Col.GENOTYPE = Some (CStr "./.").

(** ** Small runs to try the model on *)

(** One contig of twenty bases and three tables, one per variant type.  The
    tables hold no [float], so the printer of floats is never called. *)
Module Fixture.

Definition genome : gmap string (gmap string string) :=
  {[ "ref.fa" := {[ "chr1" := "acgtACGTTTGCAAGGCCTA" ]} ]}%string.

Definition row (l : list (string * cell)) : gmap string cell := list_to_map l.

Definition insertion_row : gmap string cell :=
  row [("#chrom", CStr "chr1"); ("tStart", CInt 5); ("tEnd", CInt 6);
       ("svType", CStr "insertion"); ("svSeq", CStr "ggt");
       ("hap", CStr "HAP0")]%string.

Definition deletion_row : gmap string cell :=
  row [("#chrom", CStr "chr1"); ("tStart", CInt 9); ("tEnd", CInt 12);
       ("svType", CStr "deletion"); ("svSeq", CStr "gca");
       ("hap", CStr "HOM")]%string.

Definition indel_bed : Frame :=
  {| columns := ["#chrom"; "tStart"; "tEnd"; "svType"; "svSeq"; "hap"];
     rows := [insertion_row; deletion_row] |}%string.

Definition short_row : gmap string cell :=
  row [("#chrom", CStr "chr1"); ("tStart", CInt 11); ("tEnd", CInt 13);
       ("svType", CStr "dup"); ("svSeq", CStr "CA"); ("qName", CStr "ctg2");
       ("qStart", CInt 3); ("qEnd", CInt 5); ("nAlt", CInt 2)]%string.

Definition supported_row : gmap string cell :=
  row [("#chrom", CStr "chr1"); ("tStart", CInt 2); ("tEnd", CInt 8);
       ("svType", CStr "deletion"); ("svSeq", CStr "gtACGT"); ("qName", CStr "ctg1");
       ("qStart", CInt 10); ("qEnd", CInt 10); ("nAlt", CInt 5)]%string.

Definition sv_bed : Frame :=
  {| columns := ["#chrom"; "tStart"; "tEnd"; "svType"; "svSeq"; "qName";
                 "qStart"; "qEnd"; "nAlt"];
     rows := [short_row; supported_row] |}%string.

Definition inversion_bed : Frame :=
  {| columns := ["#chrom"; "tStart"; "tEnd"; "svType"; "svSeq"];
     rows := [ row [("#chrom", CStr "chr1"); ("tStart", CInt 3); ("tEnd", CInt 9);
                    ("svType", CStr "inversion"); ("svSeq", CStr "TACGTT")] ] |}%string.

Definition env : Env :=
  {| tables := list_to_map [("indel.bed", indel_bed); ("sv.bed", sv_bed);
                            ("inversion.bed", inversion_bed)]%string;
     fastas := genome;
     today := "20180301";
     float_repr := fun _ => EmptyString;
     numeric_literal := fun _ => false |}.

End Fixture.

(** The columns lines 88-123 add to the table before the INFO field of an sv
    record is put together. *)
Definition derived_columns : list string :=
  ["sample_name"; "call_id"; "quality"; "filter"; "svLen"; "reference";
   "origTStart"; "tStart"; "POS"; "CHROM"; "svShort"; "alt"]%string.

(** [fields] read back from its pairs. *)
Definition flatten_keys (pairs : list (string * string)) : list string :=
  concat (map (fun kc => [fst kc; snd kc]) pairs).

(** The row an sv record has become when line 124 builds its INFO field. *)
Definition sv_info_row (sample filt : string) (n : Z) (bases chrom : string) (z : Z)
    (short alt : string) (r : gmap string cell) : gmap string cell :=
  <["alt" := CStr alt]> (positioned bases chrom z short (prepared sample filt n r)).

(** More tables: an inversion table that brings its own [format] and
    [genotype] columns, an sv table with a haplotype column and one extra
    column, and a table without the sequence column. *)
Module Fixture2.

Definition inversion_row : gmap string cell :=
  Fixture.row [("#chrom", CStr "chr1"); ("tStart", CInt 3); ("tEnd", CInt 9);
               ("svType", CStr "inversion"); ("svSeq", CStr "TACGTT");
               ("format", CStr "GT"); ("genotype", CStr "0/1")]%string.

Definition inversion_bed : Frame :=
  {| columns := ["#chrom"; "tStart"; "tEnd"; "svType"; "svSeq"; "format"; "genotype"];
     rows := [inversion_row] |}%string.

Definition phased_row : gmap string cell :=
  Fixture.row [("#chrom", CStr "chr1"); ("tStart", CInt 7); ("tEnd", CInt 8);
               ("svType", CStr "insertion"); ("svSeq", CStr "ttg");
               ("qName", CStr "ctg7"); ("qStart", CInt 40); ("qEnd", CInt 43);
               ("hap", CStr "HAP1"); ("caller", CStr "pbsv")]%string.

Definition sv_bed : Frame :=
  {| columns := ["#chrom"; "tStart"; "tEnd"; "svType"; "svSeq"; "qName";
                 "qStart"; "qEnd"; "hap"; "caller"];
     rows := [phased_row] |}%string.

Definition bare_row : gmap string cell :=
  Fixture.row [("#chrom", CStr "chr1"); ("tStart", CInt 3); ("tEnd", CInt 9);
               ("svType", CStr "deletion")]%string.

Definition bare_bed : Frame :=
  {| columns := ["#chrom"; "tStart"; "tEnd"; "svType"];
     rows := [bare_row] |}%string.

Definition text_row : gmap string cell :=
  Fixture.row [("#chrom", CStr "chr1"); ("tStart", CInt 3); ("tEnd", CStr "chr1:9");
               ("svType", CStr "deletion"); ("svSeq", CStr "ACGTTT")]%string.

Definition text_bed : Frame :=
  {| columns := ["#chrom"; "tStart"; "tEnd"; "svType"; "svSeq"];
     rows := [text_row] |}%string.

Definition capital_row : gmap string cell :=
  Fixture.row [("#chrom", CStr "chr1"); ("tStart", CInt 4); ("tEnd", CInt 5);
               ("svType", CStr "Insertion"); ("svSeq", CStr "tt")]%string.

Definition capital_bed : Frame :=
  {| columns := ["#chrom"; "tStart"; "tEnd"; "svType"; "svSeq"];
     rows := [capital_row] |}%string.

Definition env : Env :=
  {| tables := list_to_map [("inversion.bed", inversion_bed); ("sv.bed", sv_bed);
                            ("bare.bed", bare_bed); ("text.bed", text_bed);
                            ("capital.bed", capital_bed)]%string;
     fastas := Fixture.genome;
     today := "20180301";
     float_repr := fun _ => EmptyString;
     numeric_literal := fun _ => false |}.

End Fixture2.

(** * Properties *)

(** ** Strings *)

Lemma upper_length (s : string) :
  String.length (PyStr.upper s) = String.length s.
Proof. induction s; simpl; congruence. Qed.

Lemma upper_get (s : string) (i : nat) :
  String.get i (PyStr.upper s) = PyStr.upper_ascii <$> String.get i s.
Proof.
  revert i. induction s as [|c s IH]; intros i; [done|].
  destruct i; simpl; [done | apply IH].
Qed.

Lemma substring_length (n m : nat) (s : string) :
  (n + m ≤ String.length s)%nat → String.length (substring n m s) = m.
Proof.
  revert n m. induction s as [|c s IH]; intros n m Hb; simpl in Hb.
  - assert (n = 0 ∧ m = 0)%nat as [-> ->] by lia. done.
  - destruct n as [|n]; simpl.
    + destruct m as [|m]; [done|]. simpl. f_equal. apply (IH 0%nat). lia.
    + apply IH. lia.
Qed.

Lemma substring_whole (n : nat) (s : string) :
  (String.length s ≤ n)%nat → substring 0 n s = s.
Proof.
  revert n. induction s as [|c s IH]; intros n Hb.
  - by destruct n.
  - destruct n as [|n]; simpl in *; [lia|]. f_equal. apply IH. lia.
Qed.

Lemma substring_one (n : nat) (s : string) (b : ascii) :
  String.get n s = Some b → substring n 1 s = String b EmptyString.
Proof.
  revert n. induction s as [|c s IH]; intros n Hb; [by destruct n|].
  destruct n as [|n]; simpl in *.
  - injection Hb as ->. by destruct s.
  - by apply IH.
Qed.

Lemma get_in_bounds (n : nat) (s : string) :
  (n < String.length s)%nat → ∃ b, String.get n s = Some b.
Proof.
  revert n. induction s as [|c s IH]; intros n Hb; simpl in Hb; [lia|].
  destruct n as [|n]; simpl; [eauto|]. apply IH. lia.
Qed.

Lemma append_length (s1 s2 : string) :
  String.length (s1 +:+ s2) = (String.length s1 + String.length s2)%nat.
Proof. induction s1 as [|c s1 IH]; simpl; [done | by rewrite IH]. Qed.

(** ** Numbers *)

Lemma wrap64_small (z : Z) : - 2 ^ 63 ≤ z < 2 ^ 63 → wrap64 z = z.
Proof. intros Hz. unfold wrap64. rewrite Z.mod_small; lia. Qed.

Lemma float_of_int_3 : float_of_int 3 = Ok 3%float.
Proof. vm_compute. reflexivity. Qed.

(** On numbers, [3 < f] is false exactly when [f <= 3]; only a NaN makes
    both comparisons false. *)
Lemma float_gt_3 (f : float) :
  PrimFloat.is_nan f = false → PrimFloat.ltb 3 f = negb (PrimFloat.leb f 3).
Proof.
  unfold PrimFloat.is_nan. rewrite ltb_spec, leb_spec, FloatAxioms.eqb_spec.
  replace (Prim2SF 3) with (S754_finite false 6755399441055744 (-51))
    by (vm_compute; reflexivity).
  unfold SFltb, SFleb, SFeqb.
  destruct (Prim2SF f) as [[]|[]| |[] m e]; cbn [SFcompare negb]; try done.
  intros _. rewrite (Z.compare_antisym e (-51)).
  destruct (e ?= -51); cbn [CompOpp]; try done.
  change (PosDef.Pos.compare_cont Eq 6755399441055744 m)
    with (Pos.compare_cont (CompOpp Eq) 6755399441055744 m).
  rewrite <- (Pos.compare_cont_antisym m 6755399441055744 Eq).
  change PosDef.Pos.compare_cont with Pos.compare_cont.
  destruct (Pos.compare_cont Eq m 6755399441055744); done.
Qed.

(** ** Computations that may raise *)

Lemma bind_Ok {A B} (m : result A) (k : A → result B) (b : B) :
  bind m k = Ok b → ∃ a, m = Ok a ∧ k a = Ok b.
Proof. destruct m as [a|e]; simpl; [eauto | discriminate]. Qed.

Ltac ok_inv :=
  repeat match goal with
  | H : bind _ _ = Ok _ |- _ =>
      let a := fresh "v" in let E := fresh "E" in
      apply bind_Ok in H as (a & E & H)
  | H : Ok _ = Ok _ |- _ => injection H as H
  | H : Raise _ = Ok _ |- _ => discriminate H
  end.

Lemma mapM_lookup {A B} (f : A → result B) (l : list A) (l' : list B) i x :
  mapM f l = Ok l' → l !! i = Some x → ∃ y, f x = Ok y ∧ l' !! i = Some y.
Proof.
  revert l' i. induction l as [|a l IH]; intros l' i Hm Hi; [done|].
  simpl in Hm. ok_inv. subst l'. destruct i as [|i]; simpl in *.
  - injection Hi as ->. eauto.
  - eauto.
Qed.

Lemma mapM_cons_Ok {A B} (f : A → result B) (x : A) (l : list A) (ys : list B) :
  mapM f (x :: l) = Ok ys →
  ∃ y ys', f x = Ok y ∧ mapM f l = Ok ys' ∧ ys = y :: ys'.
Proof.
  simpl. intros H. apply bind_Ok in H as (y & Hy & H).
  apply bind_Ok in H as (ys' & Hys & H). injection H as <-. eauto.
Qed.

Lemma mapM_length {A B} (f : A → result B) (l : list A) (l' : list B) :
  mapM f l = Ok l' → length l' = length l.
Proof.
  revert l'. induction l as [|a l IH]; intros l' Hm; simpl in Hm; ok_inv; subst l'.
  - done.
  - simpl. f_equal. eauto.
Qed.

(** ** One assignment, seen from one row *)

Lemma elem_of_add_col (name n : string) (df : Frame) :
  n ∈ add_col name df ↔ n = name ∨ n ∈ columns df.
Proof.
  unfold add_col, has_col. case_bool_decide.
  - split; [auto | intros [->|]; auto].
  - rewrite elem_of_app, list_elem_of_singleton. tauto.
Qed.

Lemma item_Ok (row : gmap string cell) (name : string) (c : cell) :
  item row name = Ok c ↔ row !! name = Some c.
Proof. unfold item. destruct (row !! name); split; congruence. Qed.

Lemma item_insert_ne (row : gmap string cell) (k name : string) (v : cell) :
  k ≠ name → item (<[k := v]> row) name = item row name.
Proof. intros. unfold item. by rewrite lookup_insert_ne. Qed.

Lemma item_insert_eq (row : gmap string cell) (name : string) (v : cell) :
  item (<[name := v]> row) name = Ok v.
Proof. unfold item. by rewrite lookup_insert_eq. Qed.

Lemma item_of_lookup (row : gmap string cell) (name : string) (c : cell) :
  row !! name = Some c → item row name = Ok c.
Proof. apply item_Ok. Qed.

Ltac row_lookup :=
  repeat first
    [ rewrite lookup_insert_eq | rewrite lookup_insert_ne by done
    | rewrite item_insert_eq | rewrite item_insert_ne by done ].

Ltac row_lookup_in H :=
  repeat first
    [ rewrite lookup_insert_eq in H | rewrite lookup_insert_ne in H by done
    | rewrite item_insert_eq in H | rewrite item_insert_ne in H by done ].

Lemma assign_row name f df df' i (r : gmap string cell) :
  assign name f df = Ok df' → rows df !! i = Some r →
  ∃ v, f r = Ok v ∧ rows df' !! i = Some (<[name := v]> r).
Proof.
  unfold assign. intros H Hi. ok_inv. subst df'. simpl.
  destruct (mapM_lookup _ _ _ _ _ E Hi) as (r' & Hr & Hi'). ok_inv. subst r'. eauto.
Qed.

Lemma assign_columns name f df df' :
  assign name f df = Ok df' → columns df' = add_col name df.
Proof. unfold assign. intros H. ok_inv. by subst df'. Qed.

Lemma assign_value_row name v df i (r : gmap string cell) :
  rows df !! i = Some r → rows (assign_value name v df) !! i = Some (<[name := v]> r).
Proof. intros Hi. simpl. by rewrite list_lookup_fmap, Hi. Qed.

Lemma column_row name df series i (r : gmap string cell) :
  column name df = Ok series → rows df !! i = Some r →
  ∃ c, r !! name = Some c ∧ series !! i = Some c.
Proof.
  unfold column. destruct (has_col name df); [|discriminate]. intros H Hi.
  destruct (mapM_lookup _ _ _ _ _ H Hi) as (c & Hc & Hs).
  apply item_Ok in Hc. eauto.
Qed.

Lemma column_length name df series :
  column name df = Ok series → length series = length (rows df).
Proof.
  unfold column. destruct (has_col name df); [|discriminate]. apply mapM_length.
Qed.

Lemma assign_series_row name series df i (r : gmap string cell) c :
  rows df !! i = Some r → series !! i = Some c →
  rows (assign_series name series df) !! i = Some (<[name := c]> r).
Proof. intros Hi Hs. simpl. by rewrite lookup_zip_with, Hi, Hs. Qed.

Lemma assign_length name f df df' :
  assign name f df = Ok df' → length (rows df') = length (rows df).
Proof.
  unfold assign. intros H. apply bind_Ok in H as (rows' & Hrows & H).
  injection H as <-. by apply mapM_length in Hrows.
Qed.

Lemma assign_value_length name v df :
  length (rows (assign_value name v df)) = length (rows df).
Proof. simpl. apply length_map. Qed.

Lemma assign_series_length name series df :
  length series = length (rows df) →
  length (rows (assign_series name series df)) = length (rows df).
Proof. intros H. simpl. rewrite length_zip_with. lia. Qed.

Lemma has_col_add_ne n name df df' :
  columns df' = add_col name df → n ≠ name → has_col n df' = has_col n df.
Proof.
  intros Hc Hn. unfold has_col. apply bool_decide_ext.
  rewrite Hc, elem_of_add_col. naive_solver.
Qed.

Lemma has_col_assign_value_ne n name v df :
  n ≠ name → has_col n (assign_value name v df) = has_col n df.
Proof. by apply has_col_add_ne. Qed.

Lemma has_col_assign_series_ne n name series df :
  n ≠ name → has_col n (assign_series name series df) = has_col n df.
Proof. by apply has_col_add_ne. Qed.

Lemma has_col_assign_ne n name f df df' :
  assign name f df = Ok df' → n ≠ name → has_col n df' = has_col n df.
Proof. intros H. apply has_col_add_ne. by apply assign_columns in H. Qed.

(** ** The stages, seen from one row *)

Section Stages.

Variable env : Env.

Lemma prepare_calls_row sample df df' i (r : gmap string cell) :
  prepare_calls env sample df = Ok df' → rows df !! i = Some r →
  ∃ filt svSeq n,
    (if has_col "nAlt" df
     then ∃ nAlt, r !! "nAlt" = Some nAlt ∧ GetPass nAlt = Ok filt
     else filt = "PASS"%string) ∧
    r !! "svSeq" = Some svSeq ∧ Py.len (GetSeq svSeq) = Ok n ∧
    rows df' !! i = Some (prepared sample filt n r).
Proof.
  unfold prepare_calls. intros H Hi.
  apply bind_Ok in H as (c1 & H1 & H). apply bind_Ok in H as (c2 & H2 & H).
  apply bind_Ok in H as (? & _ & H). apply bind_Ok in H as (? & _ & H).
  injection H as <-.
  apply (assign_value_row "sample_name" (CStr sample)) in Hi.
  apply (assign_value_row "call_id" (CStr ".")) in Hi.
  apply (assign_value_row "quality" (CStr "30")) in Hi.
  rewrite !has_col_assign_value_ne in H1 by done.
  assert (∃ filt,
    (if has_col "nAlt" df
     then ∃ nAlt, r !! "nAlt" = Some nAlt ∧ GetPass nAlt = Ok filt
     else filt = "PASS"%string) ∧
    rows c1 !! i = Some (<["filter" := CStr filt]> (<["quality" := CStr "30"]>
      (<["call_id" := CStr "."]> (<["sample_name" := CStr sample]> r)))))
    as (filt & Hfilt & Hc1).
  { destruct (has_col "nAlt" df).
    - destruct (assign_row _ _ _ _ _ _ H1 Hi) as (c & Hc & Hr).
      apply bind_Ok in Hc as (nAlt & HnAlt & Hc).
      apply bind_Ok in Hc as (filt & Hfilt & Hc). injection Hc as <-.
      row_lookup_in HnAlt. apply item_Ok in HnAlt. eauto.
    - injection H1 as <-. eexists. split; [done|]. by apply assign_value_row. }
  destruct (assign_row _ _ _ _ _ _ H2 Hc1) as (c & Hc & Hr).
  apply bind_Ok in Hc as (svSeq & HsvSeq & Hc).
  apply bind_Ok in Hc as (n & Hn & Hc). injection Hc as <-.
  row_lookup_in HsvSeq. apply item_Ok in HsvSeq.
  exists filt, svSeq, n. done.
Qed.

Lemma prepare_calls_has_col sample df df' n :
  prepare_calls env sample df = Ok df' →
  n ∉ ["sample_name"; "call_id"; "quality"; "filter"; "svLen"]%string →
  has_col n df' = has_col n df.
Proof.
  unfold prepare_calls. intros H Hn. ok_inv. subst df'.
  rewrite !not_elem_of_cons in Hn. destruct Hn as (? & ? & ? & ? & ? & _).
  rewrite (has_col_assign_ne _ _ _ _ _ E0) by done.
  transitivity (has_col n (assign_value "quality" (CStr "30")
    (assign_value "call_id" (CStr ".") (assign_value "sample_name" (CStr sample) df)))).
  - destruct (has_col "nAlt" _).
    + by rewrite (has_col_assign_ne _ _ _ _ _ E).
    + ok_inv. subst v. by rewrite has_col_assign_value_ne.
  - by rewrite !has_col_assign_value_ne.
Qed.

Lemma position_calls_row reference df df' i (r : gmap string cell) :
  position_calls reference df = Ok df' → rows df !! i = Some r →
  ∃ chrom z bases svType short,
    r !! "#chrom" = Some (CStr chrom) ∧ r !! "tStart" = Some (CInt z) ∧
    fetch reference (CStr chrom) (CInt z) (CInt (z + 1)) = Ok bases ∧
    r !! "svType" = Some svType ∧ GetType svType = Ok short ∧
    rows df' !! i = Some (positioned bases chrom z short r).
Proof.
  unfold position_calls. intros H Hi. ok_inv.
  destruct (assign_row _ _ _ _ _ _ E Hi) as (c & Hc & Hr). clear Hi E.
  apply bind_Ok in Hc as (chrom & Hchrom & Hc).
  apply bind_Ok in Hc as (start & Hstart & Hc).
  apply bind_Ok in Hc as (start' & Hstart' & Hc).
  apply bind_Ok in Hc as (stop & Hstop & Hc).
  apply bind_Ok in Hc as (bases & Hfetch & Hc). injection Hc as <-.
  apply item_Ok in Hchrom, Hstart, Hstart'.
  rewrite Hstart in Hstart'. injection Hstart' as <-.
  assert (∃ c z, chrom = CStr c ∧ start = CInt z ∧ stop = CInt (z + 1))
    as (c & z & -> & -> & ->).
  { unfold fetch in Hfetch. destruct chrom, start, stop; try discriminate.
    simpl in Hstop. injection Hstop as <-. eauto. }
  destruct (column_row _ _ _ _ _ E0 Hr) as (c0 & Hc0 & Hs0).
  rewrite lookup_insert_ne, Hstart in Hc0 by done. injection Hc0 as <-.
  pose proof (assign_series_row "origTStart" _ _ _ _ _ Hr Hs0) as Hr1.
  destruct (column_row _ _ _ _ _ E1 Hr1) as (c1 & Hc1 & Hs1).
  rewrite !lookup_insert_ne, Hstart in Hc1 by done. injection Hc1 as <-.
  destruct (mapM_lookup _ _ _ _ _ E2 Hs1) as (c2 & Hc2 & Hs2).
  simpl in Hc2. injection Hc2 as <-.
  pose proof (assign_series_row "tStart" _ _ _ _ _ Hr1 Hs2) as Hr2.
  destruct (column_row _ _ _ _ _ E3 Hr2) as (c3 & Hc3 & Hs3).
  rewrite lookup_insert_eq in Hc3. injection Hc3 as <-.
  destruct (mapM_lookup _ _ _ _ _ E4 Hs3) as (c4 & Hc4 & Hs4).
  simpl in Hc4. injection Hc4 as <-.
  pose proof (assign_series_row "POS" _ _ _ _ _ Hr2 Hs4) as Hr3.
  destruct (column_row _ _ _ _ _ E5 Hr3) as (c5 & Hc5 & Hs5).
  rewrite !lookup_insert_ne, Hchrom in Hc5 by done. injection Hc5 as <-.
  pose proof (assign_series_row "CHROM" _ _ _ _ _ Hr3 Hs5) as Hr4.
  destruct (assign_row _ _ _ _ _ _ H Hr4) as (c6 & Hc6 & Hr5).
  apply bind_Ok in Hc6 as (svType & HsvType & Hc6).
  apply bind_Ok in Hc6 as (short & Hshort & Hc6). injection Hc6 as <-.
  rewrite !item_insert_ne in HsvType by done. apply item_Ok in HsvType.
  exists c, z, bases, svType, short. done.
Qed.

Lemma prepare_calls_length sample df df' :
  prepare_calls env sample df = Ok df' → length (rows df') = length (rows df).
Proof.
  unfold prepare_calls. intros H.
  apply bind_Ok in H as (c1 & H1 & H). apply bind_Ok in H as (c2 & H2 & H).
  apply bind_Ok in H as (? & _ & H). apply bind_Ok in H as (? & _ & H).
  injection H as <-. rewrite (assign_length _ _ _ _ H2).
  transitivity (length (rows (assign_value "quality" (CStr "30")
    (assign_value "call_id" (CStr ".") (assign_value "sample_name" (CStr sample) df))))).
  - destruct (has_col "nAlt" _).
    + by apply assign_length in H1.
    + injection H1 as <-. apply assign_value_length.
  - by rewrite !assign_value_length.
Qed.

Lemma position_calls_length reference df df' :
  position_calls reference df = Ok df' → length (rows df') = length (rows df).
Proof.
  unfold position_calls. intros H.
  apply bind_Ok in H as (c1 & H1 & H). apply assign_length in H1.
  apply bind_Ok in H as (s1 & Hs1 & H). apply column_length in Hs1.
  apply bind_Ok in H as (s2 & Hs2 & H). apply column_length in Hs2.
  apply bind_Ok in H as (s3 & Hs3 & H). apply mapM_length in Hs3.
  apply bind_Ok in H as (s4 & Hs4 & H). apply column_length in Hs4.
  apply bind_Ok in H as (s5 & Hs5 & H). apply mapM_length in Hs5.
  apply bind_Ok in H as (s6 & Hs6 & H). apply column_length in Hs6.
  apply assign_length in H.
  set (d1 := assign_series "origTStart" s1 c1) in *.
  assert (length (rows d1) = length (rows c1)) as L1
    by by apply assign_series_length.
  set (d2 := assign_series "tStart" s3 d1) in *.
  assert (length (rows d2) = length (rows d1)) as L2
    by (apply assign_series_length; congruence).
  set (d3 := assign_series "POS" s5 d2) in *.
  assert (length (rows d3) = length (rows d2)) as L3
    by (apply assign_series_length; congruence).
  set (d4 := assign_series "CHROM" s6 d3) in *.
  assert (length (rows d4) = length (rows d3)) as L4
    by (apply assign_series_length; congruence).
  congruence.
Qed.

Lemma position_calls_has_col reference df df' n :
  position_calls reference df = Ok df' →
  n ∉ ["reference"; "origTStart"; "tStart"; "POS"; "CHROM"; "svShort"]%string →
  has_col n df' = has_col n df.
Proof.
  unfold position_calls. intros H Hn. ok_inv.
  rewrite !not_elem_of_cons in Hn. destruct Hn as (? & ? & ? & ? & ? & ? & _).
  rewrite (has_col_assign_ne _ _ _ _ _ H) by done.
  rewrite !has_col_assign_series_ne by done.
  by rewrite (has_col_assign_ne _ _ _ _ _ E).
Qed.

Lemma assign_genotype_row df df' i (r : gmap string cell) :
  assign_genotype df = Ok df' → rows df !! i = Some r →
  ∃ gt,
    (if has_col "hap" df
     then ∃ hap, r !! "hap" = Some hap ∧ gt = GetGenotype hap
     else gt = "./."%string) ∧
    rows df' !! i = Some (<["genotype" := CStr gt]> r).
Proof.
  unfold assign_genotype. intros H Hi. destruct (has_col "hap" df).
  - destruct (assign_row _ _ _ _ _ _ H Hi) as (c & Hc & Hr).
    apply bind_Ok in Hc as (hap & Hhap & Hc). injection Hc as <-.
    apply item_Ok in Hhap. eauto.
  - apply bind_Ok in H as (tEnd & HtEnd & H). injection H as <-.
    exists "./."%string. split; [done|]. apply assign_series_row; [done|].
    apply lookup_replicate_2. rewrite (column_length _ _ _ HtEnd).
    by apply lookup_lt_Some in Hi.
Qed.

Lemma assign_genotype_has_col df df' n :
  assign_genotype df = Ok df' → n ≠ "genotype"%string →
  has_col n df' = has_col n df.
Proof.
  unfold assign_genotype. intros H Hn. destruct (has_col "hap" df).
  - by rewrite (has_col_assign_ne _ _ _ _ _ H).
  - apply bind_Ok in H as (tEnd & HtEnd & H). injection H as <-.
    by rewrite has_col_assign_series_ne.
Qed.

Lemma assign_genotype_length df df' :
  assign_genotype df = Ok df' → length (rows df') = length (rows df).
Proof.
  unfold assign_genotype. intros H. destruct (has_col "hap" df).
  - by apply assign_length in H.
  - apply bind_Ok in H as (tEnd & HtEnd & H). injection H as <-.
    apply assign_series_length. rewrite length_replicate.
    by apply column_length in HtEnd.
Qed.

Lemma branch_length vt fmt fields reference df df' :
  (if bool_decide (vt = "sv"%string) then sv_calls env fmt fields df
   else if bool_decide (vt = "indel"%string) then indel_calls env fmt reference df
   else if bool_decide (vt = "inversion"%string) then inversion_calls env df
   else Ok df) = Ok df' →
  length (rows df') = length (rows df).
Proof.
  intros Hb. repeat case_bool_decide.
  - unfold sv_calls in Hb.
    apply bind_Ok in Hb as (keys & _ & Hb).
    apply bind_Ok in Hb as (c1 & H1 & Hb). apply assign_length in H1.
    apply bind_Ok in Hb as (c2 & H2 & Hb). apply assign_length in H2.
    apply assign_genotype_length in Hb. rewrite assign_value_length in Hb. congruence.
  - unfold indel_calls in Hb.
    apply bind_Ok in Hb as (c1 & H1 & Hb). apply assign_length in H1.
    apply bind_Ok in Hb as (c2 & H2 & Hb). apply assign_length in H2.
    apply bind_Ok in Hb as (c3 & H3 & Hb). apply assign_genotype_length in H3.
    apply assign_length in Hb. rewrite assign_value_length in H3. congruence.
  - unfold inversion_calls in Hb. apply assign_length in Hb.
    by rewrite assign_value_length in Hb.
  - by injection Hb as <-.
Qed.

Lemma sv_calls_row fmt fields df df' i (r : gmap string cell) :
  sv_calls env fmt fields df = Ok df' → rows df !! i = Some r →
  ∃ extra alt info gt,
    extra_keys fields = Ok extra ∧
    symbolic_alt r = Ok alt ∧
    info_of_keys env (sv_info_keys ++ extra) (<["alt" := alt]> r) = Ok info ∧
    (if has_col "hap" df
     then ∃ hap, r !! "hap" = Some hap ∧ gt = GetGenotype hap
     else gt = "./."%string) ∧
    rows df' !! i =
      Some (<["genotype" := CStr gt]> (<["format" := CStr (PyStr.join ":" fmt)]>
             (<["info" := info]> (<["alt" := alt]> r)))).
Proof.
  unfold sv_calls. intros H Hi.
  apply bind_Ok in H as (keys & Hkeys & H).
  apply bind_Ok in H as (c1 & H1 & H).
  apply bind_Ok in H as (c2 & H2 & H).
  assert (∃ extra, extra_keys fields = Ok extra ∧ keys = sv_info_keys ++ extra)
    as (extra & Hextra & ->).
  { destruct fields as [|k fields].
    - simpl in Hkeys. injection Hkeys as <-. exists []. by rewrite app_nil_r.
    - change (0 <? length (k :: fields))%nat with true in Hkeys.
      apply bind_Ok in Hkeys as (extra & Hextra & Hkeys). injection Hkeys as <-.
      eauto. }
  destruct (assign_row _ _ _ _ _ _ H1 Hi) as (alt & Halt & Hr1).
  destruct (assign_row _ _ _ _ _ _ H2 Hr1) as (info & Hinfo & Hr2).
  pose proof (assign_value_row "format" (CStr (PyStr.join ":" fmt)) _ _ _ Hr2) as Hr3.
  destruct (assign_genotype_row _ _ _ _ H Hr3) as (gt & Hgt & Hr4).
  rewrite has_col_assign_value_ne in Hgt by done.
  rewrite (has_col_assign_ne _ _ _ _ _ H2), (has_col_assign_ne _ _ _ _ _ H1) in Hgt by done.
  rewrite !lookup_insert_ne in Hgt by done.
  exists extra, alt, info, gt. done.
Qed.

Lemma indel_calls_row fmt reference df df' i (r : gmap string cell) :
  indel_calls env fmt reference df = Ok df' → rows df !! i = Some r →
  ∃ ref alt gt info,
    GetRefSeq r reference = Ok ref ∧
    GetAltSeq (<["reference" := CStr ref]> r) reference = Ok alt ∧
    (if has_col "hap" df
     then ∃ hap, r !! "hap" = Some hap ∧ gt = GetGenotype hap
     else gt = "./."%string) ∧
    info_of_items env indel_info_items
      (<["genotype" := CStr gt]> (<["format" := CStr (PyStr.join ":" fmt)]>
        (<["alt" := CStr alt]> (<["reference" := CStr ref]> r)))) = Ok info ∧
    rows df' !! i =
      Some (<["info" := info]> (<["genotype" := CStr gt]>
             (<["format" := CStr (PyStr.join ":" fmt)]>
               (<["alt" := CStr alt]> (<["reference" := CStr ref]> r))))).
Proof.
  unfold indel_calls. intros H Hi.
  apply bind_Ok in H as (c1 & H1 & H).
  apply bind_Ok in H as (c2 & H2 & H).
  apply bind_Ok in H as (c3 & H3 & H).
  destruct (assign_row _ _ _ _ _ _ H1 Hi) as (ref & Href & Hr1).
  apply bind_Ok in Href as (ref' & Href & Hc). injection Hc as <-.
  destruct (assign_row _ _ _ _ _ _ H2 Hr1) as (alt & Halt & Hr2).
  apply bind_Ok in Halt as (alt' & Halt & Hc). injection Hc as <-.
  pose proof (assign_value_row "format" (CStr (PyStr.join ":" fmt)) _ _ _ Hr2) as Hr3.
  destruct (assign_genotype_row _ _ _ _ H3 Hr3) as (gt & Hgt & Hr4).
  rewrite has_col_assign_value_ne in Hgt by done.
  rewrite (has_col_assign_ne _ _ _ _ _ H2), (has_col_assign_ne _ _ _ _ _ H1) in Hgt by done.
  rewrite !lookup_insert_ne in Hgt by done.
  destruct (assign_row _ _ _ _ _ _ H Hr4) as (info & Hinfo & Hr5).
  exists ref', alt', gt, info. done.
Qed.

Lemma inversion_calls_row df df' i (r : gmap string cell) :
  inversion_calls env df = Ok df' → rows df !! i = Some r →
  ∃ info,
    info_of_items env inversion_info_items (<["alt" := CStr "<INV>"]> r) = Ok info ∧
    rows df' !! i = Some (<["info" := info]> (<["alt" := CStr "<INV>"]> r)).
Proof.
  unfold inversion_calls. intros H Hi.
  pose proof (assign_value_row "alt" (CStr "<INV>") _ _ _ Hi) as Hr1.
  destruct (assign_row _ _ _ _ _ _ H Hr1) as (info & Hinfo & Hr2). eauto.
Qed.

Lemma inversion_calls_has_col df df' n :
  inversion_calls env df = Ok df' → n ∉ ["alt"; "info"]%string →
  has_col n df' = has_col n df.
Proof.
  unfold inversion_calls. intros H Hn.
  rewrite !not_elem_of_cons in Hn. destruct Hn as (? & ? & _).
  rewrite (has_col_assign_ne _ _ _ _ _ H) by done.
  by rewrite has_col_assign_value_ne.
Qed.

End Stages.

(** ** The genome accessor *)

Lemma fetch_Ok genome chrom s e bases :
  fetch genome (CStr chrom) (CInt s) (CInt e) = Ok bases →
  ∃ contig, genome !! chrom = Some contig ∧
    0 ≤ s ∧ s ≤ e ∧ e ≤ Z.of_nat (String.length contig) ∧
    bases = substring (Z.to_nat s) (Z.to_nat e - Z.to_nat s) contig.
Proof.
  unfold fetch. destruct (genome !! chrom) as [contig|]; [|discriminate].
  destruct (0 <=? s) eqn:H0; [|discriminate].
  destruct (s <=? e) eqn:H1; [|discriminate].
  destruct (e <=? _) eqn:H2; [|discriminate].
  simpl. intros [= <-]. exists contig. unfold PyStr.slice. repeat split; try done; lia.
Qed.

(** ** The selection of line 175 *)

Lemma select_renamed_row sample df t i (r : gmap string cell) :
  select_renamed sample df = Ok t → rows df !! i = Some r →
  ∃ line, mapM (item r) selected = Ok line ∧ body t !! i = Some line.
Proof.
  unfold select_renamed, select. intros H Hi.
  apply bind_Ok in H as (b & Hb & H). injection H as <-. simpl.
  destruct (filter _ selected); [|discriminate].
  by apply (mapM_lookup _ _ _ _ _ Hb).
Qed.

Lemma select_renamed_has_col sample df t n :
  select_renamed sample df = Ok t → n ∈ selected → has_col n df = true.
Proof.
  unfold select_renamed, select. intros H Hn.
  apply bind_Ok in H as (b & Hb & _).
  destruct (filter _ selected) eqn:Hf; [|discriminate].
  unfold has_col. apply bool_decide_eq_true_2.
  destruct (decide (n ∈ columns df)) as [|Hnot]; [done|].
  by destruct (filter_nil_not_elem_of _ _ n Hf Hnot).
Qed.

Lemma select_renamed_shape sample df t :
  select_renamed sample df = Ok t →
  header t = ["#CHROM"; "POS"; "ID"; "REF"; "ALT"; "QUAL"; "FILTER"; "INFO";
              "FORMAT"; sample]%string ∧
  length (body t) = length (rows df).
Proof.
  unfold select_renamed, select. intros H.
  apply bind_Ok in H as (b & Hb & H). injection H as <-. simpl.
  destruct (filter _ selected); [|discriminate].
  split; [done|]. by apply mapM_length in Hb.
Qed.

(** ** A run that reaches line 175 *)

Section Runs.

Variable env : Env.

Lemma simple_calls_Ok bed ref sample vt fields t events :
  simple_calls env bed ref sample vt fields = (Ok t, events) →
  ∃ fmt calls c1 reference c2 c3,
    variant_format vt = Ok fmt ∧
    tables env !! bed = Some calls ∧
    prepare_calls env sample calls = Ok c1 ∧
    fastas env !! ref = Some reference ∧
    position_calls reference c1 = Ok c2 ∧
    (if bool_decide (vt = "sv"%string) then sv_calls env fmt fields c2
     else if bool_decide (vt = "indel"%string) then indel_calls env fmt reference c2
     else if bool_decide (vt = "inversion"%string) then inversion_calls env c2
     else Ok c2) = Ok c3 ∧
    select_renamed sample c3 = Ok t ∧
    events = [ReadTable bed; OpenFasta ref].
Proof.
  unfold simple_calls. intros H.
  destruct (variant_format vt) as [fmt|]; [|by injection H].
  destruct (tables env !! bed) as [calls|]; [|by injection H].
  destruct (prepare_calls env sample calls) as [c1|] eqn:H1; [|by injection H].
  destruct (fastas env !! ref) as [reference|]; [|by injection H].
  injection H as H <-. unfold derive_calls in H.
  apply bind_Ok in H as (c3 & H3 & H). apply bind_Ok in H3 as (c2 & H2 & H3).
  exists fmt, calls, c1, reference, c2, c3. done.
Qed.

End Runs.

Section Records.

Variable env : Env.

(** One record followed from the input table to line 114, in a run that
    reaches line 175. *)
Lemma simple_calls_row bed ref sample vt fields t events calls i
    (r : gmap string cell) :
  simple_calls env bed ref sample vt fields = (Ok t, events) →
  tables env !! bed = Some calls → rows calls !! i = Some r →
  ∃ fmt reference c2 c3 filt svSeq n chrom z bases svType short,
    variant_format vt = Ok fmt ∧
    fastas env !! ref = Some reference ∧
    (if has_col "nAlt" calls
     then ∃ nAlt, r !! "nAlt" = Some nAlt ∧ GetPass nAlt = Ok filt
     else filt = "PASS"%string) ∧
    r !! "svSeq" = Some svSeq ∧ Py.len (GetSeq svSeq) = Ok n ∧
    r !! "#chrom" = Some (CStr chrom) ∧ r !! "tStart" = Some (CInt z) ∧
    fetch reference (CStr chrom) (CInt z) (CInt (z + 1)) = Ok bases ∧
    r !! "svType" = Some svType ∧ GetType svType = Ok short ∧
    rows c2 !! i = Some (positioned bases chrom z short (prepared sample filt n r)) ∧
    has_col "hap" c2 = has_col "hap" calls ∧
    has_col "format" c2 = has_col "format" calls ∧
    has_col "genotype" c2 = has_col "genotype" calls ∧
    (if bool_decide (vt = "sv"%string) then sv_calls env fmt fields c2
     else if bool_decide (vt = "indel"%string) then indel_calls env fmt reference c2
     else if bool_decide (vt = "inversion"%string) then inversion_calls env c2
     else Ok c2) = Ok c3 ∧
    select_renamed sample c3 = Ok t.
Proof.
  intros H Hcalls Hi.
  apply simple_calls_Ok in H
    as (fmt & calls' & c1 & reference & c2 & c3 & Hfmt & Hcalls' & H1 & Href & H2 & H3 & H4 & _).
  rewrite Hcalls in Hcalls'. injection Hcalls' as <-.
  destruct (prepare_calls_row env _ _ _ _ _ H1 Hi) as (filt & svSeq & n & Hfilt & HsvSeq & Hn & Hr1).
  destruct (position_calls_row _ _ _ _ _ H2 Hr1)
    as (chrom & z & bases & svType & short & Hchrom & Hz & Hbases & HsvType & Hshort & Hr2).
  unfold prepared in Hchrom, Hz, HsvType.
  rewrite !lookup_insert_ne in Hchrom, Hz, HsvType by done.
  exists fmt, reference, c2, c3, filt, svSeq, n, chrom, z, bases, svType, short.
  repeat split; try done.
  - rewrite (position_calls_has_col _ _ _ _ H2), (prepare_calls_has_col env _ _ _ _ H1); [done|..];
      rewrite !not_elem_of_cons; repeat split; try done; apply not_elem_of_nil.
  - rewrite (position_calls_has_col _ _ _ _ H2), (prepare_calls_has_col env _ _ _ _ H1); [done|..];
      rewrite !not_elem_of_cons; repeat split; try done; apply not_elem_of_nil.
  - rewrite (position_calls_has_col _ _ _ _ H2), (prepare_calls_has_col env _ _ _ _ H1); [done|..];
      rewrite !not_elem_of_cons; repeat split; try done; apply not_elem_of_nil.
Qed.

End Records.

Lemma variant_format_Ok vt fmt :
  variant_format vt = Ok fmt →
  (vt = "sv" ∧ fmt = ["GT"])%string ∨ (vt = "indel" ∧ fmt = ["GT"])%string
  ∨ (vt = "inversion" ∧ fmt = [""])%string.
Proof.
  unfold variant_format. repeat case_bool_decide; intros [= <-]; auto.
Qed.

Lemma select_renamed_line sample df t i (r : gmap string cell) :
  select_renamed sample df = Ok t → rows df !! i = Some r →
  ∃ line, body t !! i = Some line ∧
    ∀ k n, selected !! k = Some n → line !! k = r !! n.
Proof.
  intros H Hi. destruct (select_renamed_row _ _ _ _ _ H Hi) as (line & Hm & Hl).
  exists line. split; [done|]. intros k n Hk.
  destruct (mapM_lookup _ _ _ _ _ Hm Hk) as (c & Hc & ->). by apply item_Ok in Hc.
Qed.

(** The columns a branch of lines 116-173 leaves alone. *)
Lemma branch_row env vt fmt fields reference c2 c3 i (r2 : gmap string cell) :
  variant_format vt = Ok fmt →
  (if bool_decide (vt = "sv"%string) then sv_calls env fmt fields c2
   else if bool_decide (vt = "indel"%string) then indel_calls env fmt reference c2
   else if bool_decide (vt = "inversion"%string) then inversion_calls env c2
   else Ok c2) = Ok c3 →
  rows c2 !! i = Some r2 →
  ∃ r3, rows c3 !! i = Some r3 ∧
    ∀ n, n ∉ ["reference"; "alt"; "info"; "format"; "genotype"]%string →
         r3 !! n = r2 !! n.
Proof.
  intros Hfmt H3 Hr2.
  destruct (variant_format_Ok _ _ Hfmt) as [[-> ->]|[[-> ->]|[-> ->]]]; simpl in H3.
  - destruct (sv_calls_row env _ _ _ _ _ _ H3 Hr2) as (? & ? & ? & ? & _ & _ & _ & _ & Hr3).
    eexists. split; [exact Hr3|]. intros n Hn.
    rewrite !not_elem_of_cons in Hn. destruct Hn as (? & ? & ? & ? & ? & _).
    by rewrite !lookup_insert_ne.
  - destruct (indel_calls_row env _ _ _ _ _ _ H3 Hr2) as (? & ? & ? & ? & _ & _ & _ & _ & Hr3).
    eexists. split; [exact Hr3|]. intros n Hn.
    rewrite !not_elem_of_cons in Hn. destruct Hn as (? & ? & ? & ? & ? & _).
    by rewrite !lookup_insert_ne.
  - destruct (inversion_calls_row env _ _ _ _ H3 Hr2) as (? & _ & Hr3).
    eexists. split; [exact Hr3|]. intros n Hn.
    rewrite !not_elem_of_cons in Hn. destruct Hn as (? & ? & ? & ? & ? & _).
    by rewrite !lookup_insert_ne.
Qed.

Ltac not_listed :=
  rewrite !not_elem_of_cons; repeat split; try done; apply not_elem_of_nil.

Section Claims.

Variable env : Env.

(** C1, as amended.  In every run that reaches the output, whatever the
    variant type, the POS column of a record holds the raw 0-based start plus
    one: the column written is [tStart] after its single increment of line
    109, not the column [POS] of line 110.  The increment is 64-bit; below
    [2^63 - 1] it is the plain successor. *)
Theorem pos_is_start_plus_one bed ref sample vt fields t events calls i
    (r : gmap string cell) :
  simple_calls env bed ref sample vt fields = (Ok t, events) →
  tables env !! bed = Some calls → rows calls !! i = Some r →
  ∃ z line,
    r !! "tStart" = Some (CInt z) ∧
    header t !! Col.POS = Some "POS"%string ∧
    body t !! i = Some line ∧
    line !! Col.POS = Some (CInt (wrap64 (z + 1))) ∧
    (z < 2 ^ 63 - 1 → wrap64 (z + 1) = z + 1).
Proof.
  intros H Hcalls Hi.
  destruct (simple_calls_row env _ _ _ _ _ _ _ _ _ _ H Hcalls Hi)
    as (fmt & reference & c2 & c3 & filt & svSeq & n & chrom & z & bases & svType
        & short & Hfmt & Href & Hfilt & HsvSeq & Hn & Hchrom & Hz & Hbases
        & HsvType & Hshort & Hr2 & Hhap & Hformat & Hgenotype & H3 & H4).
  destruct (branch_row _ _ _ _ _ _ _ _ _ Hfmt H3 Hr2) as (r3 & Hr3 & Hkeep).
  destruct (select_renamed_line _ _ _ _ _ H4 Hr3) as (line & Hline & Hfield).
  exists z, line. repeat split; try done.
  - by destruct (select_renamed_shape _ _ _ H4) as [-> _].
  - rewrite (Hfield Col.POS "tStart"%string), Hkeep by (done || not_listed).
    unfold positioned. rewrite !lookup_insert_ne by done. apply lookup_insert_eq.
  - intros Hlt. apply fetch_Ok in Hbases as (? & _ & ? & _). apply wrap64_small. lia.
Qed.

(** C8.  The FILTER column of a record is "FAIL" exactly when the table has
    an [nAlt] column and the record's value there is at most 3, and "PASS"
    in every other case.  A [float] count is taken to be a number: a NaN,
    which [pd.read_table(keep_default_na=False)] does not produce, compares
    false both ways. *)
Theorem filter_fail_iff_nAlt_at_most_3 bed ref sample vt fields t events calls i
    (r : gmap string cell) :
  simple_calls env bed ref sample vt fields = (Ok t, events) →
  tables env !! bed = Some calls → rows calls !! i = Some r →
  (∀ f, r !! "nAlt" = Some (CFloat f) → PrimFloat.is_nan f = false) →
  ∃ filt line,
    header t !! Col.FILTER = Some "FILTER"%string ∧
    body t !! i = Some line ∧
    line !! Col.FILTER = Some (CStr filt) ∧
    (filt = "FAIL" ∨ filt = "PASS")%string ∧
    (filt = "FAIL"%string ↔
       has_col "nAlt" calls = true ∧ ∃ v, r !! "nAlt" = Some v ∧ at_most_3 v).
Proof.
  intros H Hcalls Hi Hnan.
  destruct (simple_calls_row env _ _ _ _ _ _ _ _ _ _ H Hcalls Hi)
    as (fmt & reference & c2 & c3 & filt & svSeq & n & chrom & z & bases & svType
        & short & Hfmt & Href & Hfilt & HsvSeq & Hn & Hchrom & Hz & Hbases
        & HsvType & Hshort & Hr2 & Hhap & Hformat & Hgenotype & H3 & H4).
  destruct (branch_row _ _ _ _ _ _ _ _ _ Hfmt H3 Hr2) as (r3 & Hr3 & Hkeep).
  destruct (select_renamed_line _ _ _ _ _ H4 Hr3) as (line & Hline & Hfield).
  exists filt, line.
  split; [by destruct (select_renamed_shape _ _ _ H4) as [-> _]|].
  split; [done|].
  split.
  { rewrite (Hfield Col.FILTER "filter"%string), Hkeep by (done || not_listed).
    unfold positioned, prepared. rewrite !lookup_insert_ne by done.
    apply lookup_insert_eq. }
  destruct (has_col "nAlt" calls).
  - destruct Hfilt as (v & Hv & Hpass). unfold GetPass in Hpass.
    apply bind_Ok in Hpass as (b & Hb & Hpass).
    assert (b = false ↔ at_most_3 v) as Hiff.
    { destruct v as [s|x|f]; unfold Py.gt_int in Hb; [discriminate| |].
      - injection Hb as <-. simpl. rewrite Z.ltb_ge. done.
      - rewrite float_of_int_3 in Hb. cbn [bind] in Hb. injection Hb as <-.
        rewrite (float_gt_3 f (Hnan f Hv)). simpl.
        destruct (PrimFloat.leb f 3); simpl; split; congruence. }
    destruct b; injection Hpass as <-.
    + split; [by right|]. split; [discriminate|].
      intros (_ & v' & Hv' & Hle). rewrite Hv in Hv'. injection Hv' as <-.
      apply Hiff in Hle. discriminate.
    + split; [by left|]. split; [|done].
      intros _. split; [done|]. exists v. split; [done|]. by apply Hiff.
  - subst filt. split; [by right|]. split; [discriminate|]. by intros [? _].
Qed.

(** The genotype where the script derives one (lines 16-25, 132-135 and
    142-145).  It is a function of the haplotype tag alone: HAP0 gives 1|0,
    HAP1 gives 0|1, HOM gives 1|1 and anything else 1/1.  In a run of type sv
    or indel a table with a haplotype column gets that function of each
    record's tag, and a table without one gets ./. for every record.  The
    inversion branch derives no genotype: see
    [inversion_genotype_is_not_derived]. *)
Theorem genotype_of_haplotype bed ref sample vt fields t events calls i
    (r : gmap string cell) :
  (vt = "sv" ∨ vt = "indel")%string →
  simple_calls env bed ref sample vt fields = (Ok t, events) →
  tables env !! bed = Some calls → rows calls !! i = Some r →
  (GetGenotype (CStr "HAP0") = "1|0" ∧ GetGenotype (CStr "HAP1") = "0|1" ∧
   GetGenotype (CStr "HOM") = "1|1" ∧
   ∀ gt, gt ≠ CStr "HAP0" → gt ≠ CStr "HAP1" → gt ≠ CStr "HOM" →
         GetGenotype gt = "1/1")%string ∧
  ∃ line,
    header t !! Col.GENOTYPE = Some sample ∧
    body t !! i = Some line ∧
    if has_col "hap" calls
    then ∃ hap, r !! "hap" = Some hap ∧
                line !! Col.GENOTYPE = Some (CStr (GetGenotype hap))
    else line !! Col.GENOTYPE = Some (CStr "./.").
Proof.
  intros Hvt H Hcalls Hi. split.
  { repeat split; try done. intros gt H0 H1 H2. unfold GetGenotype, Py.eq_str.
    destruct gt as [s| |]; try done.
    repeat case_bool_decide; congruence. }
  destruct (simple_calls_row env _ _ _ _ _ _ _ _ _ _ H Hcalls Hi)
    as (fmt & reference & c2 & c3 & filt & svSeq & n & chrom & z & bases & svType
        & short & Hfmt & Href & Hfilt & HsvSeq & Hn & Hchrom & Hz & Hbases
        & HsvType & Hshort & Hr2 & Hhap & Hformat & Hgenotype & H3 & H4).
  assert (∃ r3 gt, rows c3 !! i = Some r3 ∧ r3 !! "genotype" = Some (CStr gt) ∧
            if has_col "hap" calls
            then ∃ hap, r !! "hap" = Some hap ∧ gt = GetGenotype hap
            else gt = "./."%string) as (r3 & gt & Hr3 & Hgt & Hif).
  { destruct Hvt as [-> | ->]; simpl in H3.
    - destruct (sv_calls_row env _ _ _ _ _ _ H3 Hr2)
        as (extra & alt & info & gt & _ & _ & _ & Hgt & Hr3).
      eexists. exists gt. split; [exact Hr3|]. split; [apply lookup_insert_eq|].
      rewrite Hhap in Hgt. unfold positioned, prepared in Hgt.
      by rewrite !lookup_insert_ne in Hgt by done.
    - destruct (indel_calls_row env _ _ _ _ _ _ H3 Hr2)
        as (ref' & alt & gt & info & _ & _ & Hgt & _ & Hr3).
      eexists. exists gt. split; [exact Hr3|].
      split; [by rewrite lookup_insert_ne, lookup_insert_eq|].
      rewrite Hhap in Hgt. unfold positioned, prepared in Hgt.
      by rewrite !lookup_insert_ne in Hgt by done. }
  destruct (select_renamed_line _ _ _ _ _ H4 Hr3) as (line & Hline & Hfield).
  exists line.
  split; [by destruct (select_renamed_shape _ _ _ H4) as [-> _]|].
  split; [done|].
  rewrite (Hfield Col.GENOTYPE "genotype"%string), Hgt by done.
  destruct (has_col "hap" calls).
  - destruct Hif as (hap & Hhap' & ->). eauto.
  - by subst gt.
Qed.

(** C6.  The INFO column of an indel record is the five pairs END, SVTYPE,
    SVLEN, SAMPLES, SEQ in that order, each written key=value, joined by
    semicolons; the SVTYPE value is the subtype as the table has it, not its
    three-letter abbreviation. *)
Theorem indel_info_keys bed ref sample fields t events calls i
    (r : gmap string cell) :
  simple_calls env bed ref sample "indel" fields = (Ok t, events) →
  tables env !! bed = Some calls → rows calls !! i = Some r →
  ∃ tEnd svType svSeq n line,
    r !! "tEnd" = Some tEnd ∧ r !! "svType" = Some (CStr svType) ∧
    r !! "svSeq" = Some svSeq ∧ Py.len (GetSeq svSeq) = Ok n ∧
    header t !! Col.INFO = Some "INFO"%string ∧
    body t !! i = Some line ∧
    line !! Col.INFO =
      Some (CStr (PyStr.join ";"
        [ "END=" +:+ str env tEnd; "SVTYPE=" +:+ svType;
          "SVLEN=" +:+ PyStr.of_int n; "SAMPLES=" +:+ sample;
          "SEQ=" +:+ str env svSeq ]%string)).
Proof.
  intros H Hcalls Hi.
  destruct (simple_calls_row env _ _ _ _ _ _ _ _ _ _ H Hcalls Hi)
    as (fmt & reference & c2 & c3 & filt & svSeq & n & chrom & z & bases & svType
        & short & Hfmt & Href & Hfilt & HsvSeq & Hn & Hchrom & Hz & Hbases
        & HsvType & Hshort & Hr2 & Hhap & Hformat & Hgenotype & H3 & H4).
  simpl in H3.
  destruct (indel_calls_row env _ _ _ _ _ _ H3 Hr2)
    as (ref' & alt & gt & info & _ & _ & _ & Hinfo & Hr3).
  destruct (select_renamed_line _ _ _ _ _ H4 Hr3) as (line & Hline & Hfield).
  assert (∃ s, svType = CStr s) as (s & ->).
  { destruct svType; try discriminate. eauto. }
  unfold info_of_items, indel_info_items, positioned, prepared in Hinfo.
  cbn [mapM fst snd] in Hinfo. row_lookup_in Hinfo.
  rewrite (item_of_lookup _ _ _ HsvType), (item_of_lookup _ _ _ HsvSeq) in Hinfo.
  apply bind_Ok in Hinfo as (items & Hitems & Hinfo).
  apply bind_Ok in Hitems as (kv1 & H1 & Hitems).
  apply bind_Ok in H1 as (tEnd & HtEnd & H1). injection H1 as <-.
  apply item_Ok in HtEnd.
  exists tEnd, s, svSeq, n, line. repeat split; try done.
  { by destruct (select_renamed_shape _ _ _ H4) as [-> _]. }
  rewrite (Hfield Col.INFO "info"%string), lookup_insert_eq by done.
  cbn [bind] in Hitems. injection Hitems as <-. by injection Hinfo as <-.
Qed.

(** An indel record followed to its REF and ALT alleles. *)
Lemma indel_alleles bed ref sample fields t events calls i (r : gmap string cell) :
  simple_calls env bed ref sample "indel" fields = (Ok t, events) →
  tables env !! bed = Some calls → rows calls !! i = Some r →
  ∃ reference chrom contig z svType svSeq seq REF ALT line,
    fastas env !! ref = Some reference ∧
    r !! "#chrom" = Some (CStr chrom) ∧ reference !! chrom = Some contig ∧
    r !! "tStart" = Some (CInt z) ∧ 0 ≤ z < Z.of_nat (String.length contig) ∧
    r !! "svType" = Some svType ∧
    r !! "svSeq" = Some svSeq ∧ GetSeq svSeq = CStr seq ∧
    body t !! i = Some line ∧
    line !! Col.REF = Some (CStr REF) ∧ line !! Col.ALT = Some (CStr ALT) ∧
    fetch reference (CStr chrom) (CInt z)
      (CInt (z + (if Py.eq_str svType "deletion"
                  then Z.of_nat (String.length seq) + 1 else 1)))
      = Ok (substring (Z.to_nat z)
              (if Py.eq_str svType "deletion" then String.length seq + 1 else 1)
              contig) ∧
    REF = PyStr.upper (substring (Z.to_nat z)
            (if Py.eq_str svType "deletion" then String.length seq + 1 else 1)
            contig) ∧
    if Py.eq_str svType "insertion"
    then ALT = (PyStr.upper (substring (Z.to_nat z) 1 contig) +:+ PyStr.upper seq)
    else 1 ≤ z ∧ ALT = PyStr.upper (substring (Z.to_nat (z - 1)) 1 contig).
Proof.
  intros H Hcalls Hi.
  destruct (simple_calls_row env _ _ _ _ _ _ _ _ _ _ H Hcalls Hi)
    as (fmt & reference & c2 & c3 & filt & svSeq & n & chrom & z & bases & svType
        & short & Hfmt & Href & Hfilt & HsvSeq & Hn & Hchrom & Hz & Hbases
        & HsvType & Hshort & Hr2 & Hhap & Hformat & Hgenotype & H3 & H4).
  simpl in H3.
  destruct (indel_calls_row env _ _ _ _ _ _ H3 Hr2)
    as (REF & ALT & gt & info & HREF & HALT & _ & _ & Hr3).
  destruct (select_renamed_line _ _ _ _ _ H4 Hr3) as (line & Hline & Hfield).
  assert (∃ seq, GetSeq svSeq = CStr seq ∧ n = Z.of_nat (String.length seq))
    as (seq & Hseq & ->).
  { destruct (GetSeq svSeq); try discriminate. injection Hn as <-. eauto. }
  pose proof Hbases as Hb.
  apply fetch_Ok in Hb as (contig & Hcontig & Hz0 & _ & Hz1 & _).
  unfold GetRefSeq, positioned, prepared in HREF. row_lookup_in HREF.
  rewrite (item_of_lookup _ _ _ HsvType), (item_of_lookup _ _ _ Hchrom) in HREF.
  cbn [bind] in HREF.
  unfold GetAltSeq, positioned, prepared in HALT. row_lookup_in HALT.
  rewrite (item_of_lookup _ _ _ HsvType), (item_of_lookup _ _ _ Hchrom),
    (item_of_lookup _ _ _ HsvSeq) in HALT.
  cbn [bind] in HALT. rewrite Hseq in HALT.
  cbn [bind Py.upper Py.add Py.sub] in HALT.
  set (len := if Py.eq_str svType "deletion"
              then Z.of_nat (String.length seq) + 1 else 1).
  assert (Py.add (CInt z) (CInt len) = Ok (CInt (z + len)) ∧
          (if Py.eq_str svType "deletion"
           then Py.add (CInt (Z.of_nat (String.length seq))) (CInt 1)
           else Ok (CInt 1)) = Ok (CInt len)) as [Hadd Hlen].
  { subst len. by destruct (Py.eq_str svType "deletion"). }
  rewrite Hlen in HREF. cbn [bind] in HREF. rewrite Hadd in HREF. cbn [bind] in HREF.
  apply bind_Ok in HREF as (refbases & Hfetch & HREF). injection HREF as HREF.
  pose proof Hfetch as Hf.
  apply fetch_Ok in Hf as (contig' & Hcontig' & _ & Hle & Hhi & ->).
  rewrite Hcontig in Hcontig'. injection Hcontig' as <-.
  assert (Z.to_nat (z + len) - Z.to_nat z =
          if Py.eq_str svType "deletion" then String.length seq + 1 else 1)%nat
    as Hwidth.
  { subst len. destruct (Py.eq_str svType "deletion"); lia. }
  unfold PyStr.slice in Hfetch, HREF. rewrite Hwidth in Hfetch, HREF.
  exists reference, chrom, contig, z, svType, svSeq, seq, REF, ALT, line.
  split; [done|]. split; [done|]. split; [done|]. split; [done|].
  split; [lia|]. split; [done|]. split; [done|]. split; [done|]. split; [done|].
  split. { rewrite (Hfield Col.REF "reference"%string) by done. by row_lookup. }
  split. { rewrite (Hfield Col.ALT "alt"%string) by done. by row_lookup. }
  split; [done|]. split; [done|].
  destruct (Py.eq_str svType "insertion").
  - apply bind_Ok in HALT as (b1 & Hf1 & HALT). injection HALT as <-.
    apply fetch_Ok in Hf1 as (contig' & Hcontig' & _ & _ & _ & ->).
    rewrite Hcontig in Hcontig'. injection Hcontig' as <-.
    by replace (Z.to_nat (z + 1) - Z.to_nat z)%nat with 1%nat by lia.
  - apply bind_Ok in HALT as (b1 & Hf1 & HALT). injection HALT as <-.
    apply fetch_Ok in Hf1 as (contig' & Hcontig' & Hge & _ & _ & ->).
    rewrite Hcontig in Hcontig'. injection Hcontig' as <-.
    split; [lia|].
    by replace (Z.to_nat z - Z.to_nat (z - 1))%nat with 1%nat by lia.
Qed.

(** C4, as amended.  The ALT allele of an indel record of subtype insertion
    is the reference base at [origTStart], the base REF holds, followed by
    the upper-cased variant sequence ("NA" when the sequence is missing);
    its length is one more than that of the sequence. *)
Theorem insertion_alt_starts_with_ref_base bed ref sample fields t events calls i
    (r : gmap string cell) :
  simple_calls env bed ref sample "indel" fields = (Ok t, events) →
  tables env !! bed = Some calls → rows calls !! i = Some r →
  r !! "svType" = Some (CStr "insertion") →
  ∃ reference chrom contig z svSeq seq b line,
    fastas env !! ref = Some reference ∧
    r !! "#chrom" = Some (CStr chrom) ∧ reference !! chrom = Some contig ∧
    r !! "tStart" = Some (CInt z) ∧
    r !! "svSeq" = Some svSeq ∧ GetSeq svSeq = CStr seq ∧
    String.get (Z.to_nat z) contig = Some b ∧
    body t !! i = Some line ∧
    line !! Col.REF = Some (CStr (String (PyStr.upper_ascii b) EmptyString)) ∧
    line !! Col.ALT = Some (CStr (String (PyStr.upper_ascii b) (PyStr.upper seq))) ∧
    String.length (String (PyStr.upper_ascii b) (PyStr.upper seq))
      = (1 + String.length seq)%nat.
Proof.
  intros H Hcalls Hi Hins.
  destruct (indel_alleles _ _ _ _ _ _ _ _ _ H Hcalls Hi)
    as (reference & chrom & contig & z & svType & svSeq & seq & REF & ALT & line
        & Href & Hchrom & Hcontig & Hz & Hzb & HsvType & HsvSeq & Hseq & Hline
        & HREF & HALT & Hfetch & -> & HALTeq).
  rewrite Hins in HsvType. injection HsvType as <-.
  change (Py.eq_str (CStr "insertion") "deletion") with false in *.
  change (Py.eq_str (CStr "insertion") "insertion") with true in HALTeq.
  cbv iota in *. subst ALT.
  destruct (get_in_bounds (Z.to_nat z) contig) as (b & Hb); [lia|].
  rewrite (substring_one _ _ _ Hb) in HREF, HALT.
  exists reference, chrom, contig, z, svSeq, seq, b, line.
  repeat split; try done. simpl. by rewrite upper_length.
Qed.

(** C5.  For an indel record of subtype deletion, with the event size the
    length line 99 takes from the variant sequence: REF is the reference
    from [origTStart] on, event size plus one bases long, so its first base
    is the genome base at [origTStart]; ALT is the one reference base just
    before [origTStart], where the deleted span starts. *)
Theorem deletion_ref_and_alt bed ref sample fields t events calls i
    (r : gmap string cell) :
  simple_calls env bed ref sample "indel" fields = (Ok t, events) →
  tables env !! bed = Some calls → rows calls !! i = Some r →
  r !! "svType" = Some (CStr "deletion") →
  ∃ reference chrom contig z svSeq seq a b REF line,
    fastas env !! ref = Some reference ∧
    r !! "#chrom" = Some (CStr chrom) ∧ reference !! chrom = Some contig ∧
    r !! "tStart" = Some (CInt z) ∧ 1 ≤ z ∧
    r !! "svSeq" = Some svSeq ∧ GetSeq svSeq = CStr seq ∧
    String.get (Z.to_nat (z - 1)) contig = Some a ∧
    String.get (Z.to_nat z) contig = Some b ∧
    body t !! i = Some line ∧
    line !! Col.REF = Some (CStr REF) ∧
    REF = PyStr.upper (substring (Z.to_nat z) (String.length seq + 1) contig) ∧
    String.length REF = (String.length seq + 1)%nat ∧
    String.get 0 REF = Some (PyStr.upper_ascii b) ∧
    line !! Col.ALT = Some (CStr (String (PyStr.upper_ascii a) EmptyString)).
Proof.
  intros H Hcalls Hi Hdel.
  destruct (indel_alleles _ _ _ _ _ _ _ _ _ H Hcalls Hi)
    as (reference & chrom & contig & z & svType & svSeq & seq & REF & ALT & line
        & Href & Hchrom & Hcontig & Hz & Hzb & HsvType & HsvSeq & Hseq & Hline
        & HREF & HALT & Hfetch & -> & HALTeq).
  rewrite Hdel in HsvType. injection HsvType as <-.
  change (Py.eq_str (CStr "deletion") "deletion") with true in *.
  change (Py.eq_str (CStr "deletion") "insertion") with false in HALTeq.
  cbv iota in *. destruct HALTeq as [Hz1 ->].
  destruct (get_in_bounds (Z.to_nat z) contig) as (b & Hb); [lia|].
  destruct (get_in_bounds (Z.to_nat (z - 1)) contig) as (a & Ha); [lia|].
  rewrite (substring_one _ _ _ Ha) in HALT.
  apply fetch_Ok in Hfetch as (contig' & Hcontig' & _ & _ & Hhi & _).
  rewrite Hcontig in Hcontig'. injection Hcontig' as <-.
  exists reference, chrom, contig, z, svSeq, seq, a, b. eexists. exists line.
  repeat split; try done.
  - rewrite upper_length. apply substring_length. lia.
  - rewrite upper_get, substring_correct1 by lia. simpl. by rewrite Hb.
Qed.

(** C10.  For an sv record whose subtype has at most three characters the
    INFO column reports SVTYPE=NONE, while the ALT column is the upper-cased
    subtype itself between angle brackets, which is never <NONE>. *)
Theorem short_subtype_alt_is_not_NONE bed ref sample fields t events calls i
    (r : gmap string cell) (s : string) :
  simple_calls env bed ref sample "sv" fields = (Ok t, events) →
  tables env !! bed = Some calls → rows calls !! i = Some r →
  r !! "svType" = Some (CStr s) → (String.length s ≤ 3)%nat →
  ∃ tEnd rest line,
    r !! "tEnd" = Some tEnd ∧
    body t !! i = Some line ∧
    line !! Col.INFO =
      Some (CStr (PyStr.join ";"
        (("END=" +:+ str env tEnd) :: "SVTYPE=NONE" :: rest)%string)) ∧
    line !! Col.ALT = Some (CStr ("<" +:+ PyStr.upper s +:+ ">")) ∧
    ("<" +:+ PyStr.upper s +:+ ">" ≠ "<NONE>")%string.
Proof.
  intros H Hcalls Hi Hs Hlen.
  destruct (simple_calls_row env _ _ _ _ _ _ _ _ _ _ H Hcalls Hi)
    as (fmt & reference & c2 & c3 & filt & svSeq & n & chrom & z & bases & svType
        & short & Hfmt & Href & Hfilt & HsvSeq & Hn & Hchrom & Hz & Hbases
        & HsvType & Hshort & Hr2 & Hhap & Hformat & Hgenotype & H3 & H4).
  rewrite Hs in HsvType. injection HsvType as <-.
  assert (short = "NONE"%string) as ->.
  { unfold GetType in Hshort. cbn [Py.len bind] in Hshort.
    destruct (3 <? Z.of_nat (String.length s)) eqn:Hlt; [apply Z.ltb_lt in Hlt; lia|].
    by injection Hshort as <-. }
  simpl in H3.
  destruct (sv_calls_row env _ _ _ _ _ _ H3 Hr2)
    as (extra & alt & info & gt & _ & Halt & Hinfo & _ & Hr3).
  destruct (select_renamed_line _ _ _ _ _ H4 Hr3) as (line & Hline & Hfield).
  unfold symbolic_alt, positioned, prepared in Halt. row_lookup_in Halt.
  rewrite (item_of_lookup _ _ _ Hs) in Halt.
  cbn [bind Py.prefix Py.upper] in Halt. injection Halt as <-.
  unfold PyStr.slice in Hfield, Hinfo, Hr3. simpl (3 - 0)%nat in *.
  rewrite (substring_whole 3 s Hlen) in Hinfo.
  unfold info_of_keys in Hinfo. apply bind_Ok in Hinfo as (items & Hitems & Hinfo).
  apply mapM_cons_Ok in Hitems as (i1 & items1 & H1 & Hitems & ->).
  apply mapM_cons_Ok in Hitems as (i2 & rest & H2 & _ & ->).
  unfold positioned, prepared in H1, H2. cbn [fst snd] in H1, H2.
  row_lookup_in H1. row_lookup_in H2.
  apply bind_Ok in H1 as (tEnd & HtEnd & H1). injection H1 as <-.
  cbn [bind str] in H2. injection H2 as <-. apply item_Ok in HtEnd.
  injection Hinfo as <-.
  exists tEnd, rest, line. repeat split; try done.
  - rewrite (Hfield Col.INFO "info"%string) by done. by row_lookup.
  - rewrite (Hfield Col.ALT "alt"%string) by done. row_lookup.
    by rewrite (substring_whole 3 s Hlen).
  - intros Heq. apply (f_equal String.length) in Heq.
    rewrite !append_length, upper_length in Heq. simpl in Heq. lia.
Qed.

(** C9.  A variant type other than sv, indel and inversion is refused with
    the unsupported-type error before any file is touched: the run reads
    nothing and writes nothing. *)
Theorem unsupported_type_raises_before_io bed ref vcf sample vt fields :
  vt ≠ "sv"%string → vt ≠ "indel"%string → vt ≠ "inversion"%string →
  convert_bed_to_vcf env bed ref vcf sample vt fields
    = (Raise (Exception ("Unsupported variant type: " +:+ vt)), []).
Proof.
  intros Hsv Hindel Hinv. unfold convert_bed_to_vcf, simple_calls, variant_format.
  by rewrite !bool_decide_eq_false_2.
Qed.

(** A run that ends well wrote the table of line 175 under the preamble. *)
Lemma convert_bed_to_vcf_Ok bed ref vcf sample vt fields events :
  convert_bed_to_vcf env bed ref vcf sample vt fields = (Ok tt, events) →
  ∃ t, simple_calls env bed ref sample vt fields
         = (Ok t, [ReadTable bed; OpenFasta ref]) ∧
       events = [ReadTable bed; OpenFasta ref;
                 WriteFile vcf (unlines (vcf_lines env t))].
Proof.
  unfold convert_bed_to_vcf. intros H.
  destruct (simple_calls env bed ref sample vt fields) as [[t|e] log] eqn:Hs;
    [|discriminate].
  pose proof (simple_calls_Ok _ _ _ _ _ _ _ _ Hs) as (? & ? & ? & ? & ? & ? & Hlog).
  destruct Hlog as (_ & _ & _ & _ & _ & _ & _ & ->).
  injection H as <-. eauto.
Qed.

(** C2, as amended.  The file a run writes holds thirteen metadata lines
    (file format, date and source, nine INFO declarations and one FORMAT
    declaration), then the tab-separated header row, then one tab-separated
    row per input record, in input order. *)
Theorem vcf_file_layout bed ref vcf sample vt fields events :
  convert_bed_to_vcf env bed ref vcf sample vt fields = (Ok tt, events) →
  ∃ calls t data,
    tables env !! bed = Some calls ∧
    simple_calls env bed ref sample vt fields
      = (Ok t, [ReadTable bed; OpenFasta ref]) ∧
    events = [ReadTable bed; OpenFasta ref;
              WriteFile vcf (unlines (vcf_lines env t))] ∧
    vcf_lines env t = preamble env ++ header_row sample :: data ∧
    length (preamble env) = 13%nat ∧
    Forall (fun l => is_meta l = true) (preamble env) ∧
    length (List.filter (String.prefix "##INFO=") (preamble env)) = 9%nat ∧
    length (List.filter (String.prefix "##FORMAT=") (preamble env)) = 1%nat ∧
    is_meta (header_row sample) = false ∧
    data = map (fun line => PyStr.join PyStr.tab (map (str env) line)) (body t) ∧
    length data = length (rows calls).
Proof.
  intros H. apply convert_bed_to_vcf_Ok in H as (t & Hs & ->).
  pose proof (simple_calls_Ok _ _ _ _ _ _ _ _ Hs)
    as (fmt & calls & c1 & reference & c2 & c3 & _ & Hcalls & H1 & _ & H2 & H3 & H4 & _).
  destruct (select_renamed_shape _ _ _ H4) as [Hhdr Hlen].
  exists calls, t. eexists. split; [done|]. split; [done|]. split; [done|].
  split. { unfold vcf_lines, to_csv. by rewrite Hhdr. }
  split; [done|].
  split. { unfold preamble. repeat constructor. }
  split; [done|]. split; [done|]. split; [done|]. split; [done|].
  rewrite length_map, Hlen, (branch_length env _ _ _ _ _ _ H3).
  by rewrite (position_calls_length _ _ _ H2), (prepare_calls_length env _ _ _ H1).
Qed.

(** C3, where the code departs from the claim.  Lines 160-173 assign neither
    the [format] nor the [genotype] column, although line 80 prepares the
    empty FORMAT and the sv and indel branches assign both.  So a run of type
    inversion over a table that lacks one of these columns raises at the
    selection of line 175, if not before, and writes no file. *)
Theorem inversion_run_writes_nothing bed ref vcf sample fields calls :
  tables env !! bed = Some calls →
  has_col "format" calls = false ∨ has_col "genotype" calls = false →
  ∃ e events,
    convert_bed_to_vcf env bed ref vcf sample "inversion" fields = (Raise e, events) ∧
    ∀ path text, WriteFile path text ∉ events.
Proof.
  intros Hcalls Hmissing. unfold convert_bed_to_vcf.
  destruct (simple_calls env bed ref sample "inversion" fields) as [[t|e] log] eqn:Hs.
  - exfalso.
    pose proof (simple_calls_Ok _ _ _ _ _ _ _ _ Hs)
      as (fmt & calls' & c1 & reference & c2 & c3 & _ & Hcalls' & H1 & _ & H2 & H3 & H4 & _).
    rewrite Hcalls in Hcalls'. injection Hcalls' as <-. simpl in H3.
    assert (∀ n, n ∈ ["format"; "genotype"]%string → has_col n calls = true) as Hall.
    { intros n Hn.
      rewrite <- (prepare_calls_has_col env _ _ _ n H1),
        <- (position_calls_has_col _ _ _ n H2),
        <- (inversion_calls_has_col env _ _ n H3).
      - apply (select_renamed_has_col _ _ _ _ H4).
        apply elem_of_cons in Hn as [->|Hn]; [|apply list_elem_of_singleton in Hn as ->];
          unfold selected; set_solver.
      - apply elem_of_cons in Hn as [->|Hn]; [|apply list_elem_of_singleton in Hn as ->];
          not_listed.
      - apply elem_of_cons in Hn as [->|Hn]; [|apply list_elem_of_singleton in Hn as ->];
          not_listed.
      - apply elem_of_cons in Hn as [->|Hn]; [|apply list_elem_of_singleton in Hn as ->];
          not_listed. }
    destruct Hmissing as [Hm|Hm]; rewrite Hall in Hm; try discriminate; set_solver.
  - exists e, log. split; [done|]. intros path text Hin.
    unfold simple_calls in Hs.
    change (variant_format "inversion") with (Ok [""%string]) in Hs.
    rewrite Hcalls in Hs.
    destruct (prepare_calls env sample calls);
      [destruct (fastas env !! ref)|]; injection Hs as _ <-; set_solver.
Qed.

End Claims.

(** ** The claims on the small runs *)

Lemma pos_is_start_plus_one_witness :
  ∃ t events,
    simple_calls Fixture.env "indel.bed" "ref.fa" "S1" "indel" [] = (Ok t, events) ∧
    ∃ z line,
      Fixture.insertion_row !! "tStart" = Some (CInt z) ∧
      header t !! Col.POS = Some "POS"%string ∧
      body t !! 0%nat = Some line ∧
      line !! Col.POS = Some (CInt (wrap64 (z + 1))) ∧
      (z < 2 ^ 63 - 1 → wrap64 (z + 1) = z + 1).
Proof.
  do 2 eexists. split; [vm_compute; reflexivity|].
  eapply (pos_is_start_plus_one Fixture.env "indel.bed" "ref.fa" "S1" "indel" []
           _ _ Fixture.indel_bed 0 Fixture.insertion_row);
    vm_compute; reflexivity.
Defined.

(** C1 as stated fails on the first record of the indel table: its start is
    5 and its POS column holds 6, not 7. *)
Lemma pos_is_not_start_plus_two :
  ¬ pos_is_start_plus_two Fixture.env "indel.bed" "ref.fa" "S1" "indel" [].
Proof.
  unfold pos_is_start_plus_two. intros Hclaim.
  edestruct Hclaim
    with (calls := Fixture.indel_bed) (i := 0%nat) (r := Fixture.insertion_row) (z := 5)
    as (line & Hline & Hpos); [vm_compute; reflexivity..|].
  vm_compute in Hline. injection Hline as <-. vm_compute in Hpos. discriminate.
Qed.

Lemma vcf_file_layout_witness :
  ∃ events,
    convert_bed_to_vcf Fixture.env "indel.bed" "ref.fa" "out.vcf" "S1" "indel" []
      = (Ok tt, events) ∧
    ∃ calls t data,
      tables Fixture.env !! "indel.bed" = Some calls ∧
      simple_calls Fixture.env "indel.bed" "ref.fa" "S1" "indel" []
        = (Ok t, [ReadTable "indel.bed"; OpenFasta "ref.fa"]) ∧
      events = [ReadTable "indel.bed"; OpenFasta "ref.fa";
                WriteFile "out.vcf" (unlines (vcf_lines Fixture.env t))] ∧
      vcf_lines Fixture.env t = preamble Fixture.env ++ header_row "S1" :: data ∧
      length (preamble Fixture.env) = 13%nat ∧
      Forall (fun l => is_meta l = true) (preamble Fixture.env) ∧
      length (List.filter (String.prefix "##INFO=") (preamble Fixture.env)) = 9%nat ∧
      length (List.filter (String.prefix "##FORMAT=") (preamble Fixture.env)) = 1%nat ∧
      is_meta (header_row "S1") = false ∧
      data = map (fun line => PyStr.join PyStr.tab (map (str Fixture.env) line)) (body t) ∧
      length data = length (rows calls).
Proof.
  eexists. split; [vm_compute; reflexivity|].
  apply (vcf_file_layout Fixture.env "indel.bed" "ref.fa" "out.vcf" "S1" "indel" []).
  vm_compute; reflexivity.
Defined.

(** C2 as stated fails on the indel table: the tenth line of the file is a
    ##INFO line, not the header row. *)
Lemma preamble_is_not_nine_lines :
  ¬ nine_metadata_lines Fixture.env "indel.bed" "ref.fa" "out.vcf" "S1" "indel" [].
Proof.
  unfold nine_metadata_lines. intros Hclaim.
  edestruct Hclaim as (t & pre & data & _ & Hlines & Hlen & _);
    [vm_compute; reflexivity|].
  assert (vcf_lines Fixture.env t !! 9%nat = Some (header_row "S1")) as Htenth.
  { rewrite Hlines, lookup_app_r by lia. by rewrite Hlen. }
  unfold vcf_lines in Htenth. rewrite lookup_app_l in Htenth by (simpl; lia).
  vm_compute in Htenth. discriminate.
Qed.

Lemma inversion_run_writes_nothing_witness :
  ∃ e events,
    convert_bed_to_vcf Fixture.env "inversion.bed" "ref.fa" "out.vcf" "S1"
      "inversion" [] = (Raise e, events) ∧
    ∀ path text, WriteFile path text ∉ events.
Proof.
  apply (inversion_run_writes_nothing Fixture.env "inversion.bed" "ref.fa" "out.vcf"
           "S1" [] Fixture.inversion_bed).
  - vm_compute; reflexivity.
  - left. vm_compute; reflexivity.
Defined.

(** On the inversion table the run ends at line 175 with the missing column. *)
Example inversion_run_raises_KeyError :
  convert_bed_to_vcf Fixture.env "inversion.bed" "ref.fa" "out.vcf" "S1"
    "inversion" []
  = (Raise (KeyError "format"), [ReadTable "inversion.bed"; OpenFasta "ref.fa"]).
Proof. vm_compute. reflexivity. Qed.

Lemma insertion_alt_starts_with_ref_base_witness :
  ∃ t events,
    simple_calls Fixture.env "indel.bed" "ref.fa" "S1" "indel" [] = (Ok t, events) ∧
    ∃ reference chrom contig z svSeq seq b line,
      fastas Fixture.env !! "ref.fa" = Some reference ∧
      Fixture.insertion_row !! "#chrom" = Some (CStr chrom) ∧
      reference !! chrom = Some contig ∧
      Fixture.insertion_row !! "tStart" = Some (CInt z) ∧
      Fixture.insertion_row !! "svSeq" = Some svSeq ∧ GetSeq svSeq = CStr seq ∧
      String.get (Z.to_nat z) contig = Some b ∧
      body t !! 0%nat = Some line ∧
      line !! Col.REF = Some (CStr (String (PyStr.upper_ascii b) EmptyString)) ∧
      line !! Col.ALT = Some (CStr (String (PyStr.upper_ascii b) (PyStr.upper seq))) ∧
      String.length (String (PyStr.upper_ascii b) (PyStr.upper seq))
        = (1 + String.length seq)%nat.
Proof.
  do 2 eexists. split; [vm_compute; reflexivity|].
  eapply (insertion_alt_starts_with_ref_base Fixture.env "indel.bed" "ref.fa" "S1" []
           _ _ Fixture.indel_bed 0 Fixture.insertion_row);
    vm_compute; reflexivity.
Defined.

(** C4 as stated fails on the insertion of the indel table: the base before
    position 5 is A, and the ALT column starts with the base at 5, C. *)
Lemma insertion_alt_is_not_from_preceding_base :
  ¬ insertion_alt_from_preceding_base Fixture.env "indel.bed" "ref.fa" "S1" [].
Proof.
  unfold insertion_alt_from_preceding_base. intros Hclaim.
  edestruct Hclaim
    with (calls := Fixture.indel_bed) (i := 0%nat) (r := Fixture.insertion_row)
         (chrom := "chr1"%string) (z := 5) (seq := "ggt"%string)
    as (line & Hline & Halt); [vm_compute; reflexivity..|].
  vm_compute in Hline. injection Hline as <-. vm_compute in Halt. discriminate.
Qed.

Lemma deletion_ref_and_alt_witness :
  ∃ t events,
    simple_calls Fixture.env "indel.bed" "ref.fa" "S1" "indel" [] = (Ok t, events) ∧
    ∃ reference chrom contig z svSeq seq a b REF line,
      fastas Fixture.env !! "ref.fa" = Some reference ∧
      Fixture.deletion_row !! "#chrom" = Some (CStr chrom) ∧
      reference !! chrom = Some contig ∧
      Fixture.deletion_row !! "tStart" = Some (CInt z) ∧ 1 ≤ z ∧
      Fixture.deletion_row !! "svSeq" = Some svSeq ∧ GetSeq svSeq = CStr seq ∧
      String.get (Z.to_nat (z - 1)) contig = Some a ∧
      String.get (Z.to_nat z) contig = Some b ∧
      body t !! 1%nat = Some line ∧
      line !! Col.REF = Some (CStr REF) ∧
      REF = PyStr.upper (substring (Z.to_nat z) (String.length seq + 1) contig) ∧
      String.length REF = (String.length seq + 1)%nat ∧
      String.get 0 REF = Some (PyStr.upper_ascii b) ∧
      line !! Col.ALT = Some (CStr (String (PyStr.upper_ascii a) EmptyString)).
Proof.
  do 2 eexists. split; [vm_compute; reflexivity|].
  eapply (deletion_ref_and_alt Fixture.env "indel.bed" "ref.fa" "S1" []
           _ _ Fixture.indel_bed 1 Fixture.deletion_row);
    vm_compute; reflexivity.
Defined.

Lemma indel_info_keys_witness :
  ∃ t events,
    simple_calls Fixture.env "indel.bed" "ref.fa" "S1" "indel" [] = (Ok t, events) ∧
    ∃ tEnd svType svSeq n line,
      Fixture.deletion_row !! "tEnd" = Some tEnd ∧
      Fixture.deletion_row !! "svType" = Some (CStr svType) ∧
      Fixture.deletion_row !! "svSeq" = Some svSeq ∧ Py.len (GetSeq svSeq) = Ok n ∧
      header t !! Col.INFO = Some "INFO"%string ∧
      body t !! 1%nat = Some line ∧
      line !! Col.INFO =
        Some (CStr (PyStr.join ";"
          [ "END=" +:+ str Fixture.env tEnd; "SVTYPE=" +:+ svType;
            "SVLEN=" +:+ PyStr.of_int n; "SAMPLES=" +:+ "S1";
            "SEQ=" +:+ str Fixture.env svSeq ]%string)).
Proof.
  do 2 eexists. split; [vm_compute; reflexivity|].
  eapply (indel_info_keys Fixture.env "indel.bed" "ref.fa" "S1" []
            _ _ Fixture.indel_bed 1 Fixture.deletion_row);
    vm_compute; reflexivity.
Defined.

Lemma genotype_of_haplotype_witness :
  ∃ t events,
    simple_calls Fixture.env "sv.bed" "ref.fa" "S1" "sv" [] = (Ok t, events) ∧
    (GetGenotype (CStr "HAP0") = "1|0" ∧ GetGenotype (CStr "HAP1") = "0|1" ∧
     GetGenotype (CStr "HOM") = "1|1" ∧
     ∀ gt, gt ≠ CStr "HAP0" → gt ≠ CStr "HAP1" → gt ≠ CStr "HOM" →
           GetGenotype gt = "1/1")%string ∧
    ∃ line,
      header t !! Col.GENOTYPE = Some "S1"%string ∧
      body t !! 0%nat = Some line ∧
      if has_col "hap" Fixture.sv_bed
      then ∃ hap, Fixture.short_row !! "hap" = Some hap ∧
                  line !! Col.GENOTYPE = Some (CStr (GetGenotype hap))
      else line !! Col.GENOTYPE = Some (CStr "./.").
Proof.
  do 2 eexists. split; [vm_compute; reflexivity|].
  eapply (genotype_of_haplotype Fixture.env "sv.bed" "ref.fa" "S1" "sv" []
            _ _ Fixture.sv_bed 0 Fixture.short_row).
  - by left.
  - vm_compute; reflexivity.
  - vm_compute; reflexivity.
  - vm_compute; reflexivity.
Defined.

(** C7, where the code departs from the claim.  The inversion branch (lines
    160-173) has no counterpart of lines 132-135 and 142-145: it derives no
    genotype, neither from a haplotype tag nor the ./. of a table without
    one.  On the inversion table that brings its own [format] and [genotype]
    columns and has no haplotype column, the run ends well and the genotype
    it writes for the record is the 0/1 of the table, not ./., so the claim
    as stated fails there. *)
Theorem inversion_genotype_is_not_derived :
  tables Fixture2.env !! "inversion.bed" = Some Fixture2.inversion_bed ∧
  has_col "hap" Fixture2.inversion_bed = false ∧
  simple_calls Fixture2.env "inversion.bed" "ref.fa" "S1" "inversion" []
    = (Ok {| header := ["#CHROM"; "POS"; "ID"; "REF"; "ALT"; "QUAL"; "FILTER";
                        "INFO"; "FORMAT"; "S1"];
             body := [[CStr "chr1"; CInt 4; CStr "."; CStr "T"; CStr "<INV>";
                       CStr "30"; CStr "PASS";
                       CStr "END=9;SVTYPE=inversion;SVLEN=6;SAMPLES=S1";
                       CStr "GT"; CStr "0/1"]] |}%string,
       [ReadTable "inversion.bed"; OpenFasta "ref.fa"]) ∧
  ¬ missing_call_without_hap Fixture2.env "inversion.bed" "ref.fa" "S1"
      "inversion" [].
Proof.
  split; [vm_compute; reflexivity|]. split; [vm_compute; reflexivity|].
  split; [vm_compute; reflexivity|].
  unfold missing_call_without_hap. intros Hclaim.
  assert ([CStr "chr1"; CInt 4; CStr "."; CStr "T"; CStr "<INV>"; CStr "30";
           CStr "PASS"; CStr "END=9;SVTYPE=inversion;SVLEN=6;SAMPLES=S1";
           CStr "GT"; CStr "0/1"]%string !! Col.GENOTYPE
          = Some (CStr "./.")) as Hgt.
  { eapply Hclaim with (calls := Fixture2.inversion_bed) (i := 0%nat);
      vm_compute; reflexivity. }
  vm_compute in Hgt. discriminate.
Qed.

Lemma filter_fail_iff_nAlt_at_most_3_witness :
  ∃ t events,
    simple_calls Fixture.env "sv.bed" "ref.fa" "S1" "sv" [] = (Ok t, events) ∧
    ∃ filt line,
      header t !! Col.FILTER = Some "FILTER"%string ∧
      body t !! 0%nat = Some line ∧
      line !! Col.FILTER = Some (CStr filt) ∧
      (filt = "FAIL" ∨ filt = "PASS")%string ∧
      (filt = "FAIL"%string ↔
         has_col "nAlt" Fixture.sv_bed = true ∧
         ∃ v, Fixture.short_row !! "nAlt" = Some v ∧ at_most_3 v).
Proof.
  do 2 eexists. split; [vm_compute; reflexivity|].
  eapply (filter_fail_iff_nAlt_at_most_3 Fixture.env "sv.bed" "ref.fa" "S1" "sv" []
            _ _ Fixture.sv_bed 0 Fixture.short_row).
  - vm_compute; reflexivity.
  - vm_compute; reflexivity.
  - vm_compute; reflexivity.
  - intros f Hf. vm_compute in Hf. discriminate Hf.
Defined.

Lemma unsupported_type_raises_before_io_witness :
  convert_bed_to_vcf Fixture.env "indel.bed" "ref.fa" "out.vcf" "S1" "foo" []
    = (Raise (Exception "Unsupported variant type: foo"), []).
Proof.
  apply (unsupported_type_raises_before_io Fixture.env "indel.bed" "ref.fa" "out.vcf"
           "S1" "foo" []); discriminate.
Defined.

Lemma short_subtype_alt_is_not_NONE_witness :
  ∃ t events,
    simple_calls Fixture.env "sv.bed" "ref.fa" "S1" "sv" [] = (Ok t, events) ∧
    ∃ tEnd rest line,
      Fixture.short_row !! "tEnd" = Some tEnd ∧
      body t !! 0%nat = Some line ∧
      line !! Col.INFO =
        Some (CStr (PyStr.join ";"
          (("END=" +:+ str Fixture.env tEnd) :: "SVTYPE=NONE" :: rest)%string)) ∧
      line !! Col.ALT = Some (CStr ("<" +:+ PyStr.upper "dup" +:+ ">")) ∧
      ("<" +:+ PyStr.upper "dup" +:+ ">" ≠ "<NONE>")%string.
Proof.
  do 2 eexists. split; [vm_compute; reflexivity|].
  eapply (short_subtype_alt_is_not_NONE Fixture.env "sv.bed" "ref.fa" "S1" []
            _ _ Fixture.sv_bed 0 Fixture.short_row "dup").
  - vm_compute; reflexivity.
  - vm_compute; reflexivity.
  - vm_compute; reflexivity.
  - vm_compute; reflexivity.
  - simpl. lia.
Defined.

(** * Further properties of the script *)

Section Rows.

Variable env : Env.

Lemma select_renamed_cells sample df t i (r : gmap string cell) :
  select_renamed sample df = Ok t → rows df !! i = Some r →
  ∃ chrom pos id ref alt qual filt info fmt gt,
    r !! "#chrom" = Some chrom ∧ r !! "tStart" = Some pos ∧
    r !! "call_id" = Some id ∧ r !! "reference" = Some ref ∧
    r !! "alt" = Some alt ∧ r !! "quality" = Some qual ∧
    r !! "filter" = Some filt ∧ r !! "info" = Some info ∧
    r !! "format" = Some fmt ∧ r !! "genotype" = Some gt ∧
    body t !! i = Some [chrom; pos; id; ref; alt; qual; filt; info; fmt; gt].
Proof.
  intros H Hi. destruct (select_renamed_row _ _ _ _ _ H Hi) as (line & Hm & Hl).
  unfold selected in Hm.
  repeat (apply mapM_cons_Ok in Hm as (? & ? & ?%item_Ok & Hm & ->)).
  injection Hm as <-. repeat eexists; eauto.
Qed.

(** An sv record followed to its whole output row. *)
Lemma sv_run_row bed ref sample fields t events calls i (r : gmap string cell) :
  simple_calls env bed ref sample "sv" fields = (Ok t, events) →
  tables env !! bed = Some calls → rows calls !! i = Some r →
  ∃ reference filt svSeq n chrom z bases s short extra alt info gt,
    fastas env !! ref = Some reference ∧
    (if has_col "nAlt" calls
     then ∃ nAlt, r !! "nAlt" = Some nAlt ∧ GetPass nAlt = Ok filt
     else filt = "PASS"%string) ∧
    r !! "svSeq" = Some svSeq ∧ Py.len (GetSeq svSeq) = Ok n ∧
    r !! "#chrom" = Some (CStr chrom) ∧ r !! "tStart" = Some (CInt z) ∧
    fetch reference (CStr chrom) (CInt z) (CInt (z + 1)) = Ok bases ∧
    r !! "svType" = Some (CStr s) ∧ GetType (CStr s) = Ok short ∧
    extra_keys fields = Ok extra ∧
    alt = ("<" +:+ PyStr.upper (substring 0 3 s) +:+ ">")%string ∧
    info_of_keys env (sv_info_keys ++ extra)
      (sv_info_row sample filt n bases chrom z short alt r) = Ok (CStr info) ∧
    (if has_col "hap" calls
     then ∃ hap, r !! "hap" = Some hap ∧ gt = GetGenotype hap
     else gt = "./."%string) ∧
    body t !! i =
      Some [CStr chrom; CInt (wrap64 (z + 1)); CStr "."; CStr (PyStr.upper bases);
            CStr alt; CStr "30"; CStr filt; CStr info; CStr "GT"; CStr gt].
Proof.
  intros H Hcalls Hi.
  destruct (simple_calls_row env _ _ _ _ _ _ _ _ _ _ H Hcalls Hi)
    as (fmt & reference & c2 & c3 & filt & svSeq & n & chrom & z & bases & svType
        & short & Hfmt & Href & Hfilt & HsvSeq & Hn & Hchrom & Hz & Hbases
        & HsvType & Hshort & Hr2 & Hhap & Hformat & Hgenotype & H3 & H4).
  injection Hfmt as <-. simpl in H3.
  destruct (sv_calls_row env _ _ _ _ _ _ H3 Hr2)
    as (extra & alt & info & gt & Hextra & Halt & Hinfo & Hgt & Hr3).
  assert (∃ s, svType = CStr s) as (s & ->).
  { destruct svType; try discriminate. eauto. }
  unfold symbolic_alt, positioned, prepared in Halt. row_lookup_in Halt.
  rewrite (item_of_lookup _ _ _ HsvType) in Halt.
  cbn [bind Py.prefix Py.upper] in Halt. unfold PyStr.slice in Halt.
  simpl (3 - 0)%nat in Halt. injection Halt as <-.
  assert (∃ text, info = CStr text) as (text & ->).
  { unfold info_of_keys in Hinfo. apply bind_Ok in Hinfo as (? & _ & Hinfo).
    injection Hinfo as <-. eauto. }
  rewrite Hhap in Hgt. unfold positioned, prepared in Hgt. row_lookup_in Hgt.
  destruct (select_renamed_cells _ _ _ _ _ H4 Hr3)
    as (c0 & c1 & c2' & c3' & c4 & c5 & c6 & c7 & c8 & c9
        & E0 & E1 & E2 & E3 & E4 & E5 & E6 & E7 & E8 & E9 & Hline).
  unfold positioned, prepared in E0, E1, E2, E3, E4, E5, E6, E7, E8, E9.
  row_lookup_in E0. row_lookup_in E1. row_lookup_in E2. row_lookup_in E3.
  row_lookup_in E4. row_lookup_in E5. row_lookup_in E6. row_lookup_in E7.
  row_lookup_in E8. row_lookup_in E9.
  rewrite Hchrom in E0.
  injection E0 as <-. injection E1 as <-. injection E2 as <-. injection E3 as <-.
  injection E4 as <-. injection E5 as <-. injection E6 as <-. injection E7 as <-.
  injection E8 as <-. injection E9 as <-.
  exists reference, filt, svSeq, n, chrom, z, bases, s, short, extra.
  eexists _, text, gt. repeat split; try done.
Qed.

End Rows.

Lemma substring_prefix_length (n : nat) (s : string) :
  String.length (substring 0 n s) = (n `min` String.length s)%nat.
Proof.
  revert n. induction s as [|c s IH]; intros n.
  - destruct n; simpl; lia.
  - destruct n as [|n]; simpl; [done|]. by rewrite IH.
Qed.



Lemma pairs_ind {A} (P : list A → Prop) :
  P [] → (∀ x, P [x]) → (∀ x y l, P l → P (x :: y :: l)) → ∀ l, P l.
Proof.
  intros Hnil Hone Hstep l.
  assert (P l ∧ ∀ x, P (x :: l)) as [H _]; [|done].
  induction l as [|y l [IH1 IH2]]; split; auto.
Qed.

Section Extras.

Variable env : Env.

(** Whatever the outcome, lines 66-175 touch the table first and the
    reference second, and nothing else. *)
Lemma simple_calls_events bed ref sample vt fields res events :
  simple_calls env bed ref sample vt fields = (res, events) →
  (events = [] ∨ events = [ReadTable bed] ∨ events = [ReadTable bed; OpenFasta ref]) ∧
  (∀ t, res = Ok t → events = [ReadTable bed; OpenFasta ref]).
Proof.
  unfold simple_calls. intros H.
  destruct (variant_format vt); [|injection H as <- <-; split; [auto|done]].
  destruct (tables env !! bed); [|injection H as <- <-; split; [auto|done]].
  destruct (prepare_calls env sample f); [|injection H as <- <-; split; [auto|done]].
  destruct (fastas env !! ref); injection H as <- <-; split; auto; done.
Qed.

Lemma extra_keys_odd (fields : list string) :
  Nat.Odd (length fields) → extra_keys fields = Raise IndexError.
Proof.
  induction fields as [|k|k c fields IH] using pairs_ind.
  - intros [m Hm]. simpl in Hm. lia.
  - done.
  - intros [m Hm]. simpl in Hm. cbn [extra_keys].
    rewrite IH; [done|]. exists (m - 1)%nat. lia.
Qed.

(** The list comprehension of line 120 pairs up an even number of fields in
    their order, and raises [IndexError] on an odd number. *)
Theorem extra_keys_pairs_up_fields (fields : list string) :
  (Nat.Even (length fields) →
     ∃ pairs, extra_keys fields = Ok pairs ∧ flatten_keys pairs = fields ∧
              (2 * length pairs = length fields)%nat) ∧
  (Nat.Odd (length fields) → extra_keys fields = Raise IndexError).
Proof.
  split; [|apply extra_keys_odd].
  induction fields as [|k|k c fields IH] using pairs_ind.
  - intros _. by exists [].
  - intros [m Hm]. simpl in Hm. lia.
  - intros [m Hm]. simpl in Hm.
    destruct IH as (pairs & Hp & Hflat & Hlen); [exists (m - 1)%nat; lia|].
    exists ((k, c) :: pairs). cbn [extra_keys]. rewrite Hp. simpl.
    unfold flatten_keys in *. simpl. rewrite Hflat. split; [done|]. split; [done|lia].
Qed.

(** An odd number of [--fields] stops the sv branch at line 120, before any
    column of the branch is computed, so an sv run with such fields raises
    and writes no file. *)
Theorem odd_fields_stop_sv_run bed ref vcf sample fields :
  Nat.Odd (length fields) →
  (∀ fmt calls, sv_calls env fmt fields calls = Raise IndexError) ∧
  ∃ e events,
    convert_bed_to_vcf env bed ref vcf sample "sv" fields = (Raise e, events) ∧
    ∀ path text, WriteFile path text ∉ events.
Proof.
  intros Hodd.
  assert (∀ fmt calls, sv_calls env fmt fields calls = Raise IndexError) as Hsv.
  { intros fmt calls. unfold sv_calls.
    destruct fields as [|k fields]; [destruct Hodd as [m Hm]; simpl in Hm; lia|].
    change (0 <? length (k :: fields))%nat with true. cbv iota.
    by rewrite (extra_keys_odd (k :: fields) Hodd). }
  split; [done|]. unfold convert_bed_to_vcf.
  destruct (simple_calls env bed ref sample "sv" fields) as [[t|e] events] eqn:Hs.
  - exfalso.
    pose proof (simple_calls_Ok _ _ _ _ _ _ _ _ Hs)
      as (fmt & calls & c1 & reference & c2 & c3 & _ & _ & _ & _ & _ & H3 & _).
    simpl in H3. by rewrite Hsv in H3.
  - exists e, events. split; [done|]. intros path text.
    destruct (simple_calls_events _ _ _ _ _ _ _ Hs) as [[->|[->| ->]] _]; set_solver.
Qed.

(** Outside the sv type the fields are never looked at: an indel or inversion
    run does the same with any fields, well-formed or not, as with none. *)
Theorem fields_only_matter_for_sv bed ref vcf sample vt fields :
  vt ≠ "sv"%string →
  convert_bed_to_vcf env bed ref vcf sample vt fields
    = convert_bed_to_vcf env bed ref vcf sample vt [].
Proof.
  intros Hvt. unfold convert_bed_to_vcf, simple_calls, derive_calls.
  by rewrite (bool_decide_eq_false_2 _ Hvt).
Qed.

Lemma sv_info_row_other sample filt n bases chrom z short alt
    (r : gmap string cell) (c : string) :
  c ∉ derived_columns →
  sv_info_row sample filt n bases chrom z short alt r !! c = r !! c.
Proof.
  unfold derived_columns. rewrite !not_elem_of_cons.
  intros (? & ? & ? & ? & ? & ? & ? & ? & ? & ? & ? & ? & _).
  unfold sv_info_row, positioned, prepared. by rewrite !lookup_insert_ne.
Qed.

Lemma info_item_Ok (row : gmap string cell) (kc : string * string) (y : string) :
  (let* v := item row (snd kc) in Ok (fst kc +:+ "=" +:+ str env v)) = Ok y →
  ∃ v, row !! snd kc = Some v ∧ y = (fst kc +:+ "=" +:+ str env v)%string.
Proof.
  intros H. apply bind_Ok in H as (v & Hv & H). injection H as <-.
  apply item_Ok in Hv. eauto.
Qed.

(** The ALT column of every sv record is the first three characters of its
    subtype, fewer when the subtype is shorter, upper-cased and set between
    angle brackets. *)
Theorem sv_alt_is_bracketed_prefix bed ref sample fields t events calls i
    (r : gmap string cell) :
  simple_calls env bed ref sample "sv" fields = (Ok t, events) →
  tables env !! bed = Some calls → rows calls !! i = Some r →
  ∃ s line,
    r !! "svType" = Some (CStr s) ∧
    body t !! i = Some line ∧
    line !! Col.ALT = Some (CStr ("<" +:+ PyStr.upper (substring 0 3 s) +:+ ">")) ∧
    String.length (PyStr.upper (substring 0 3 s)) = (3 `min` String.length s)%nat.
Proof.
  intros H Hcalls Hi.
  destruct (sv_run_row env _ _ _ _ _ _ _ _ _ H Hcalls Hi)
    as (reference & filt & svSeq & n & chrom & z & bases & s & short & extra & alt
        & info & gt & _ & _ & _ & _ & _ & _ & _ & Hs & _ & _ & -> & _ & _ & Hline).
  exists s. eexists. split; [done|]. split; [exact Hline|]. split; [done|].
  by rewrite upper_length, substring_prefix_length.
Qed.


(** For an sv record whose subtype has more than three characters, the
    SVTYPE reported in INFO and the symbolic ALT agree: both are the first
    three characters of the subtype, upper-cased. *)
Theorem long_subtype_alt_agrees_with_svtype bed ref sample fields t events calls i
    (r : gmap string cell) (s : string) :
  simple_calls env bed ref sample "sv" fields = (Ok t, events) →
  tables env !! bed = Some calls → rows calls !! i = Some r →
  r !! "svType" = Some (CStr s) → (3 < String.length s)%nat →
  ∃ abbr tEnd rest line,
    abbr = PyStr.upper (substring 0 3 s) ∧ String.length abbr = 3%nat ∧
    r !! "tEnd" = Some tEnd ∧
    body t !! i = Some line ∧
    line !! Col.INFO =
      Some (CStr (PyStr.join ";"
        (("END=" +:+ str env tEnd) :: ("SVTYPE=" +:+ abbr) :: rest)%string)) ∧
    line !! Col.ALT = Some (CStr ("<" +:+ abbr +:+ ">")).
Proof.
  intros H Hcalls Hi Hs Hlen.
  destruct (sv_run_row env _ _ _ _ _ _ _ _ _ H Hcalls Hi)
    as (reference & filt & svSeq & n & chrom & z & bases & s' & short & extra & alt
        & info & gt & _ & _ & _ & _ & _ & _ & _ & Hs' & Hshort & _ & -> & Hinfo
        & _ & Hline).
  rewrite Hs in Hs'. injection Hs' as <-.
  unfold GetType in Hshort. cbn [Py.len bind] in Hshort.
  destruct (3 <? Z.of_nat (String.length s)) eqn:Hlt;
    [|apply Z.ltb_ge in Hlt; lia].
  cbn [Py.prefix bind Py.upper] in Hshort. unfold PyStr.slice in Hshort.
  simpl (3 - 0)%nat in Hshort. injection Hshort as <-.
  unfold info_of_keys in Hinfo. apply bind_Ok in Hinfo as (items & Hitems & Hinfo).
  injection Hinfo as <-. unfold sv_info_keys in Hitems.
  rewrite <- !app_comm_cons in Hitems.
  apply mapM_cons_Ok in Hitems as (y1 & ? & (tEnd & HtEnd & ->)%info_item_Ok & Hitems & ->).
  apply mapM_cons_Ok in Hitems as (y2 & rest & (v2 & Hv2 & ->)%info_item_Ok & _ & ->).
  cbn [fst snd] in *.
  rewrite sv_info_row_other in HtEnd by (unfold derived_columns; not_listed).
  unfold sv_info_row, positioned, prepared in Hv2. row_lookup_in Hv2.
  injection Hv2 as <-.
  exists (PyStr.upper (substring 0 3 s)), tEnd, rest. eexists.
  split; [done|].
  split; [rewrite upper_length, substring_prefix_length; lia|].
  split; [done|]. split; [exact Hline|]. done.
Qed.

(** Every output row, of whatever type, has the ten VCF cells, of which
    CHROM is the record's contig name, ID the dot and QUAL the text 30. *)
Theorem constant_columns bed ref sample vt fields t events calls i
    (r : gmap string cell) :
  simple_calls env bed ref sample vt fields = (Ok t, events) →
  tables env !! bed = Some calls → rows calls !! i = Some r →
  ∃ chrom line,
    r !! "#chrom" = Some (CStr chrom) ∧
    length (header t) = 10%nat ∧
    body t !! i = Some line ∧ length line = 10%nat ∧
    line !! Col.CHROM = Some (CStr chrom) ∧
    line !! Col.ID = Some (CStr ".") ∧
    line !! Col.QUAL = Some (CStr "30").
Proof.
  intros H Hcalls Hi.
  destruct (simple_calls_row env _ _ _ _ _ _ _ _ _ _ H Hcalls Hi)
    as (fmt & reference & c2 & c3 & filt & svSeq & n & chrom & z & bases & svType
        & short & Hfmt & Href & Hfilt & HsvSeq & Hn & Hchrom & Hz & Hbases
        & HsvType & Hshort & Hr2 & Hhap & Hformat & Hgenotype & H3 & H4).
  destruct (branch_row _ _ _ _ _ _ _ _ _ Hfmt H3 Hr2) as (r3 & Hr3 & Hkeep).
  destruct (select_renamed_cells _ _ _ _ _ H4 Hr3)
    as (c0 & c1 & c2' & c3' & c4 & c5 & c6 & c7 & c8 & c9
        & E0 & _ & E2 & _ & _ & E5 & _ & _ & _ & _ & Hline).
  rewrite Hkeep in E0, E2, E5 by not_listed.
  unfold positioned, prepared in E0, E2, E5.
  row_lookup_in E0. row_lookup_in E2. row_lookup_in E5.
  rewrite Hchrom in E0. injection E0 as <-. injection E2 as <-. injection E5 as <-.
  exists chrom. eexists. split; [done|].
  split; [by destruct (select_renamed_shape _ _ _ H4) as [-> _]|].
  split; [exact Hline|]. done.
Qed.

(** The FORMAT and genotype cells of a record in a run of type sv or indel. *)
Lemma format_and_genotype bed ref sample vt fields t events calls i
    (r : gmap string cell) :
  (vt = "sv" ∨ vt = "indel")%string →
  simple_calls env bed ref sample vt fields = (Ok t, events) →
  tables env !! bed = Some calls → rows calls !! i = Some r →
  ∃ gt line,
    body t !! i = Some line ∧
    line !! Col.FORMAT = Some (CStr "GT") ∧
    line !! Col.GENOTYPE = Some (CStr gt) ∧
    if has_col "hap" calls
    then ∃ hap, r !! "hap" = Some hap ∧ gt = GetGenotype hap
    else gt = "./."%string.
Proof.
  intros Hvt H Hcalls Hi.
  destruct (simple_calls_row env _ _ _ _ _ _ _ _ _ _ H Hcalls Hi)
    as (fmt & reference & c2 & c3 & filt & svSeq & n & chrom & z & bases & svType
        & short & Hfmt & Href & Hfilt & HsvSeq & Hn & Hchrom & Hz & Hbases
        & HsvType & Hshort & Hr2 & Hhap & Hformat & Hgenotype & H3 & H4).
  assert (∃ r3 gt, rows c3 !! i = Some r3 ∧ r3 !! "genotype" = Some (CStr gt) ∧
            r3 !! "format" = Some (CStr "GT") ∧
            if has_col "hap" calls
            then ∃ hap, r !! "hap" = Some hap ∧ gt = GetGenotype hap
            else gt = "./."%string) as (r3 & gt & Hr3 & Hgt & Hf & Hif).
  { destruct Hvt as [-> | ->]; injection Hfmt as <-; simpl in H3.
    - destruct (sv_calls_row env _ _ _ _ _ _ H3 Hr2)
        as (extra & alt & info & gt & _ & _ & _ & Hgt & Hr3).
      eexists. exists gt. split; [exact Hr3|]. split; [by row_lookup|].
      split; [by row_lookup|].
      rewrite Hhap in Hgt. unfold positioned, prepared in Hgt. by row_lookup_in Hgt.
    - destruct (indel_calls_row env _ _ _ _ _ _ H3 Hr2)
        as (ref' & alt & gt & info & _ & _ & Hgt & _ & Hr3).
      eexists. exists gt. split; [exact Hr3|]. split; [by row_lookup|].
      split; [by row_lookup|].
      rewrite Hhap in Hgt. unfold positioned, prepared in Hgt. by row_lookup_in Hgt. }
  destruct (select_renamed_line _ _ _ _ _ H4 Hr3) as (line & Hline & Hfield).
  exists gt, line. split; [done|].
  rewrite (Hfield Col.FORMAT "format"%string), (Hfield Col.GENOTYPE "genotype"%string)
    by done.
  done.
Qed.

Lemma GetGenotype_is_a_call (hap : cell) : GetGenotype hap ≠ "./."%string.
Proof. unfold GetGenotype. repeat destruct (Py.eq_str _ _); discriminate. Qed.

(** In a run of type sv or indel the FORMAT column of every record is GT. *)
Theorem format_is_GT bed ref sample vt fields t events calls i
    (r : gmap string cell) :
  (vt = "sv" ∨ vt = "indel")%string →
  simple_calls env bed ref sample vt fields = (Ok t, events) →
  tables env !! bed = Some calls → rows calls !! i = Some r →
  ∃ line,
    header t !! Col.FORMAT = Some "FORMAT"%string ∧
    body t !! i = Some line ∧ line !! Col.FORMAT = Some (CStr "GT").
Proof.
  intros Hvt H Hcalls Hi.
  destruct (format_and_genotype _ _ _ _ _ _ _ _ _ _ Hvt H Hcalls Hi)
    as (gt & line & Hline & Hformat & _).
  exists line. split; [|done].
  apply simple_calls_Ok in H as (? & ? & ? & ? & ? & ? & _ & _ & _ & _ & _ & _ & H4 & _).
  by destruct (select_renamed_shape _ _ _ H4) as [-> _].
Qed.

(** In a run of type sv or indel a record gets the missing call ./. exactly
    when the table has no haplotype column: with the column, whatever the
    tag, the genotype is one of the four calls of [GetGenotype]. *)
Theorem missing_call_iff_no_hap_column bed ref sample vt fields t events calls i
    (r : gmap string cell) :
  (vt = "sv" ∨ vt = "indel")%string →
  simple_calls env bed ref sample vt fields = (Ok t, events) →
  tables env !! bed = Some calls → rows calls !! i = Some r →
  ∃ gt line,
    body t !! i = Some line ∧ line !! Col.GENOTYPE = Some (CStr gt) ∧
    (gt = "./."%string ↔ has_col "hap" calls = false) ∧
    (gt = "./." ∨ gt = "1|0" ∨ gt = "0|1" ∨ gt = "1|1" ∨ gt = "1/1")%string.
Proof.
  intros Hvt H Hcalls Hi.
  destruct (format_and_genotype _ _ _ _ _ _ _ _ _ _ Hvt H Hcalls Hi)
    as (gt & line & Hline & _ & Hgt & Hif).
  exists gt, line. split; [done|]. split; [done|].
  destruct (has_col "hap" calls).
  - destruct Hif as (hap & _ & ->). split.
    + split; [|done]. intros Heq. by apply GetGenotype_is_a_call in Heq.
    + unfold GetGenotype. repeat destruct (Py.eq_str _ _); auto.
  - subst gt. split; [done|]. by left.
Qed.

(** The REF column of an sv record is the one reference base at the record's
    start, upper-cased. *)
Theorem sv_ref_is_base_at_start bed ref sample fields t events calls i
    (r : gmap string cell) :
  simple_calls env bed ref sample "sv" fields = (Ok t, events) →
  tables env !! bed = Some calls → rows calls !! i = Some r →
  ∃ reference chrom contig z b line,
    fastas env !! ref = Some reference ∧
    r !! "#chrom" = Some (CStr chrom) ∧ reference !! chrom = Some contig ∧
    r !! "tStart" = Some (CInt z) ∧
    String.get (Z.to_nat z) contig = Some b ∧
    body t !! i = Some line ∧
    line !! Col.REF = Some (CStr (String (PyStr.upper_ascii b) EmptyString)).
Proof.
  intros H Hcalls Hi.
  destruct (sv_run_row env _ _ _ _ _ _ _ _ _ H Hcalls Hi)
    as (reference & filt & svSeq & n & chrom & z & bases & s & short & extra & alt
        & info & gt & Href & _ & _ & _ & Hchrom & Hz & Hbases & _ & _ & _ & _ & _
        & _ & Hline).
  apply fetch_Ok in Hbases as (contig & Hcontig & Hz0 & _ & Hz1 & ->).
  destruct (get_in_bounds (Z.to_nat z) contig) as (b & Hb); [lia|].
  replace (Z.to_nat (z + 1) - Z.to_nat z)%nat with 1%nat in Hline by lia.
  rewrite (substring_one _ _ _ Hb) in Hline.
  exists reference, chrom, contig, z, b. eexists. repeat split; done.
Qed.

(** A table in which some record has no variant sequence is refused, for
    each of the three types, before the reference is opened: the run has
    only read the table.  When the table has no [nAlt] column and the record
    is the first one, the exception is the [KeyError] of the column. *)
Theorem record_without_sequence_is_refused bed ref vcf sample vt fields calls i
    (r : gmap string cell) :
  (vt = "sv" ∨ vt = "indel" ∨ vt = "inversion")%string →
  tables env !! bed = Some calls → rows calls !! i = Some r →
  r !! "svSeq" = None →
  ∃ e,
    convert_bed_to_vcf env bed ref vcf sample vt fields = (Raise e, [ReadTable bed]) ∧
    (has_col "nAlt" calls = false → i = 0%nat → e = KeyError "svSeq").
Proof.
  intros Hvt Hcalls Hi Hnone. unfold convert_bed_to_vcf, simple_calls.
  assert (∃ fmt, variant_format vt = Ok fmt) as (fmt & ->).
  { destruct Hvt as [->|[->| ->]]; by eexists. }
  rewrite Hcalls.
  destruct (prepare_calls env sample calls) as [c1|e] eqn:H1.
  { destruct (prepare_calls_row env _ _ _ _ _ H1 Hi) as (? & ? & ? & _ & Hsome & _).
    congruence. }
  exists e. split; [done|]. intros HnAlt ->.
  unfold prepare_calls in H1. rewrite !has_col_assign_value_ne in H1 by done.
  rewrite HnAlt in H1. cbn [bind] in H1. unfold assign at 1 in H1.
  destruct (rows calls) as [|r' rest] eqn:Hrows; [done|].
  injection Hi as ->.
  cbn [rows assign_value map mapM] in H1. rewrite Hrows in H1.
  cbn [map mapM] in H1. row_lookup_in H1.
  unfold item at 1 in H1. rewrite Hnone in H1. cbn [bind] in H1. congruence.
Qed.

(** An inversion run can only reach the output on a table that brings its
    own [format] and [genotype] columns.  Then each record has ALT <INV>, an
    INFO of the four pairs END, SVTYPE, SVLEN, SAMPLES with the subtype
    unabbreviated, and the FORMAT and genotype cells the table held. *)
Theorem inversion_record_keeps_table_format bed ref sample fields t events calls i
    (r : gmap string cell) :
  simple_calls env bed ref sample "inversion" fields = (Ok t, events) →
  tables env !! bed = Some calls → rows calls !! i = Some r →
  has_col "format" calls = true ∧ has_col "genotype" calls = true ∧
  ∃ tEnd s svSeq n fmt gt line,
    r !! "tEnd" = Some tEnd ∧ r !! "svType" = Some (CStr s) ∧
    r !! "svSeq" = Some svSeq ∧ Py.len (GetSeq svSeq) = Ok n ∧
    r !! "format" = Some fmt ∧ r !! "genotype" = Some gt ∧
    body t !! i = Some line ∧
    line !! Col.ALT = Some (CStr "<INV>") ∧
    line !! Col.INFO =
      Some (CStr (PyStr.join ";"
        [ "END=" +:+ str env tEnd; "SVTYPE=" +:+ s;
          "SVLEN=" +:+ PyStr.of_int n; "SAMPLES=" +:+ sample ]%string)) ∧
    line !! Col.FORMAT = Some fmt ∧ line !! Col.GENOTYPE = Some gt.
Proof.
  intros H Hcalls Hi.
  destruct (simple_calls_row env _ _ _ _ _ _ _ _ _ _ H Hcalls Hi)
    as (fmt & reference & c2 & c3 & filt & svSeq & n & chrom & z & bases & svType
        & short & Hfmt & Href & Hfilt & HsvSeq & Hn & Hchrom & Hz & Hbases
        & HsvType & Hshort & Hr2 & Hhap & Hformat & Hgenotype & H3 & H4).
  simpl in H3.
  assert (has_col "format" calls = true ∧ has_col "genotype" calls = true)
    as [Hf Hg].
  { rewrite <- Hformat, <- Hgenotype.
    rewrite <- (inversion_calls_has_col env _ _ "format"%string H3) by not_listed.
    rewrite <- (inversion_calls_has_col env _ _ "genotype"%string H3) by not_listed.
    split; apply (select_renamed_has_col _ _ _ _ H4); unfold selected; set_solver. }
  split; [done|]. split; [done|].
  destruct (inversion_calls_row env _ _ _ _ H3 Hr2) as (info & Hinfo & Hr3).
  destruct (select_renamed_cells _ _ _ _ _ H4 Hr3)
    as (c0 & c1 & c2' & c3' & c4 & c5 & c6 & c7 & c8 & c9
        & _ & _ & _ & _ & E4 & _ & _ & E7 & E8 & E9 & Hline).
  unfold positioned, prepared in E4, E7, E8, E9.
  row_lookup_in E4. row_lookup_in E7. row_lookup_in E8. row_lookup_in E9.
  injection E4 as <-. injection E7 as <-.
  assert (∃ s, svType = CStr s) as (s & ->).
  { destruct svType; try discriminate. eauto. }
  unfold info_of_items, inversion_info_items, positioned, prepared in Hinfo.
  cbn [mapM fst snd] in Hinfo. row_lookup_in Hinfo.
  rewrite (item_of_lookup _ _ _ HsvType) in Hinfo.
  apply bind_Ok in Hinfo as (items & Hitems & Hinfo).
  apply bind_Ok in Hitems as (kv1 & H1 & Hitems).
  apply bind_Ok in H1 as (tEnd & HtEnd & H1). injection H1 as <-.
  apply item_Ok in HtEnd.
  cbn [bind] in Hitems. injection Hitems as <-. injection Hinfo as <-.
  exists tEnd, s, svSeq, n, c8, c9. eexists. repeat split; done.
Qed.

Lemma to_numeric_row name df i (r : gmap string cell) :
  to_numeric env name df = Ok tt → rows df !! i = Some r →
  ∃ c, r !! name = Some c ∧ ∀ s, c = CStr s → numeric_literal env s = true.
Proof.
  unfold to_numeric. intros H Hi. apply bind_Ok in H as (series & Hseries & H).
  destruct (column_row _ _ _ _ _ Hseries Hi) as (c & Hc & Hs).
  exists c. split; [done|]. intros s ->.
  destruct (forallb _ series) eqn:Hall; [|discriminate].
  rewrite forallb_forall in Hall.
  apply (Hall (CStr s)). apply list_elem_of_In. by eapply list_elem_of_lookup_2.
Qed.

(** Lines 101-102 refuse a table whose start or end column holds a text that
    is not a number: the run raises before the reference is opened. *)
Theorem text_coordinate_is_refused bed ref vcf sample vt fields calls i
    (r : gmap string cell) (name s : string) :
  (vt = "sv" ∨ vt = "indel" ∨ vt = "inversion")%string →
  tables env !! bed = Some calls → rows calls !! i = Some r →
  (name = "tStart" ∨ name = "tEnd")%string →
  r !! name = Some (CStr s) → numeric_literal env s = false →
  ∃ e, convert_bed_to_vcf env bed ref vcf sample vt fields
         = (Raise e, [ReadTable bed]).
Proof.
  intros Hvt Hcalls Hi Hname Hcell Hnot. unfold convert_bed_to_vcf, simple_calls.
  assert (∃ fmt, variant_format vt = Ok fmt) as (fmt & ->).
  { destruct Hvt as [->|[->| ->]]; by eexists. }
  rewrite Hcalls.
  destruct (prepare_calls env sample calls) as [c1|e] eqn:H1; [|by exists e].
  exfalso.
  destruct (prepare_calls_row env _ _ _ _ _ H1 Hi) as (filt & svSeq & n & _ & _ & _ & Hr1).
  unfold prepare_calls in H1.
  apply bind_Ok in H1 as (d1 & _ & H1). apply bind_Ok in H1 as (d2 & _ & H1).
  apply bind_Ok in H1 as ([] & Hstart & H1). apply bind_Ok in H1 as ([] & Hend & H1).
  injection H1 as ->.
  assert (to_numeric env name c1 = Ok tt) as Hnum by (by destruct Hname as [-> | ->]).
  destruct (to_numeric_row _ _ _ _ Hnum Hr1) as (c & Hc & Hlit).
  unfold prepared in Hc. destruct Hname as [-> | ->]; row_lookup_in Hc;
    rewrite Hcell in Hc; injection Hc as <-; specialize (Hlit s eq_refl); congruence.
Qed.

(** The subtype of an indel record is compared as written.  A record that is
    neither an "insertion" nor a "deletion" gets the one reference base at
    its start as REF and the one base before its start as ALT. *)
Theorem other_indel_subtype_alleles bed ref sample fields t events calls i
    (r : gmap string cell) (s : string) :
  simple_calls env bed ref sample "indel" fields = (Ok t, events) →
  tables env !! bed = Some calls → rows calls !! i = Some r →
  r !! "svType" = Some (CStr s) →
  s ≠ "insertion"%string → s ≠ "deletion"%string →
  ∃ reference chrom contig z a b line,
    fastas env !! ref = Some reference ∧
    r !! "#chrom" = Some (CStr chrom) ∧ reference !! chrom = Some contig ∧
    r !! "tStart" = Some (CInt z) ∧
    String.get (Z.to_nat (z - 1)) contig = Some a ∧
    String.get (Z.to_nat z) contig = Some b ∧
    body t !! i = Some line ∧
    line !! Col.REF = Some (CStr (String (PyStr.upper_ascii b) EmptyString)) ∧
    line !! Col.ALT = Some (CStr (String (PyStr.upper_ascii a) EmptyString)).
Proof.
  intros H Hcalls Hi Hs Hins Hdel.
  destruct (indel_alleles _ _ _ _ _ _ _ _ _ _ H Hcalls Hi)
    as (reference & chrom & contig & z & svType & svSeq & seq & REF & ALT & line
        & Href & Hchrom & Hcontig & Hz & Hzb & HsvType & HsvSeq & Hseq & Hline
        & HREF & HALT & Hfetch & -> & HALTeq).
  rewrite Hs in HsvType. injection HsvType as <-.
  simpl in HREF, HALTeq.
  rewrite bool_decide_eq_false_2 in HREF by done.
  rewrite bool_decide_eq_false_2 in HALTeq by done.
  destruct HALTeq as [Hz1 ->].
  destruct (get_in_bounds (Z.to_nat z) contig) as (b & Hb); [lia|].
  destruct (get_in_bounds (Z.to_nat (z - 1)) contig) as (a & Ha); [lia|].
  rewrite (substring_one _ _ _ Hb) in HREF. rewrite (substring_one _ _ _ Ha) in HALT.
  exists reference, chrom, contig, z, a, b, line. repeat split; done.
Qed.

End Extras.

(** ** The further properties on the small runs *)

Lemma extra_keys_pairs_up_fields_witness :
  (∃ pairs, extra_keys ["CALLER"; "caller"]%string = Ok pairs ∧
            flatten_keys pairs = ["CALLER"; "caller"]%string ∧
            (2 * length pairs = 2)%nat) ∧
  extra_keys ["CALLER"]%string = Raise IndexError.
Proof.
  split.
  - apply (proj1 (extra_keys_pairs_up_fields ["CALLER"; "caller"]%string)).
    exists 1%nat. reflexivity.
  - apply (proj2 (extra_keys_pairs_up_fields ["CALLER"]%string)).
    exists 0%nat. reflexivity.
Defined.

Lemma odd_fields_stop_sv_run_witness :
  (∀ fmt calls, sv_calls Fixture.env fmt ["CALLER"]%string calls = Raise IndexError) ∧
  ∃ e events,
    convert_bed_to_vcf Fixture.env "sv.bed" "ref.fa" "out.vcf" "S1" "sv"
      ["CALLER"]%string = (Raise e, events) ∧
    ∀ path text, WriteFile path text ∉ events.
Proof.
  apply (odd_fields_stop_sv_run Fixture.env "sv.bed" "ref.fa" "out.vcf" "S1"
           ["CALLER"]%string).
  exists 0%nat. reflexivity.
Defined.

Lemma fields_only_matter_for_sv_witness :
  convert_bed_to_vcf Fixture.env "indel.bed" "ref.fa" "out.vcf" "S1" "indel"
    ["CALLER"]%string
  = convert_bed_to_vcf Fixture.env "indel.bed" "ref.fa" "out.vcf" "S1" "indel" [].
Proof.
  apply (fields_only_matter_for_sv Fixture.env "indel.bed" "ref.fa" "out.vcf" "S1"
           "indel" ["CALLER"]%string).
  discriminate.
Defined.

Lemma sv_alt_is_bracketed_prefix_witness :
  ∃ t events,
    simple_calls Fixture.env "sv.bed" "ref.fa" "S1" "sv" [] = (Ok t, events) ∧
    ∃ s line,
      Fixture.supported_row !! "svType" = Some (CStr s) ∧
      body t !! 1%nat = Some line ∧
      line !! Col.ALT = Some (CStr ("<" +:+ PyStr.upper (substring 0 3 s) +:+ ">")) ∧
      String.length (PyStr.upper (substring 0 3 s)) = (3 `min` String.length s)%nat.
Proof.
  do 2 eexists. split; [vm_compute; reflexivity|].
  eapply (sv_alt_is_bracketed_prefix Fixture.env "sv.bed" "ref.fa" "S1" []
            _ _ Fixture.sv_bed 1 Fixture.supported_row);
    vm_compute; reflexivity.
Defined.


(** With the fields CALLER and caller, the INFO of the record ends in the
    value of its column [caller]. *)
Example sv_info_with_a_field :
  ∃ t line,
    simple_calls Fixture2.env "sv.bed" "ref.fa" "S1" "sv" ["CALLER"; "caller"]%string
      = (Ok t, [ReadTable "sv.bed"; OpenFasta "ref.fa"]) ∧
    body t !! 0%nat = Some line ∧
    line !! Col.INFO =
      Some (CStr ("END=8;SVTYPE=INS;SVLEN=3;CONTIG=ctg7;CONTIG_START=40;"
                  +:+ "CONTIG_END=43;SEQ=ttg;CALLER=pbsv")).
Proof. do 2 eexists. split; [vm_compute; reflexivity|]. split; reflexivity. Qed.

Lemma long_subtype_alt_agrees_with_svtype_witness :
  ∃ t events,
    simple_calls Fixture.env "sv.bed" "ref.fa" "S1" "sv" [] = (Ok t, events) ∧
    ∃ abbr tEnd rest line,
      abbr = PyStr.upper (substring 0 3 "deletion") ∧ String.length abbr = 3%nat ∧
      Fixture.supported_row !! "tEnd" = Some tEnd ∧
      body t !! 1%nat = Some line ∧
      line !! Col.INFO =
        Some (CStr (PyStr.join ";"
          (("END=" +:+ str Fixture.env tEnd) :: ("SVTYPE=" +:+ abbr) :: rest)%string)) ∧
      line !! Col.ALT = Some (CStr ("<" +:+ abbr +:+ ">")).
Proof.
  do 2 eexists. split; [vm_compute; reflexivity|].
  eapply (long_subtype_alt_agrees_with_svtype Fixture.env "sv.bed" "ref.fa" "S1" []
            _ _ Fixture.sv_bed 1 Fixture.supported_row "deletion").
  - vm_compute; reflexivity.
  - vm_compute; reflexivity.
  - vm_compute; reflexivity.
  - vm_compute; reflexivity.
  - simpl. lia.
Defined.

Lemma constant_columns_witness :
  ∃ t events,
    simple_calls Fixture.env "indel.bed" "ref.fa" "S1" "indel" [] = (Ok t, events) ∧
    ∃ chrom line,
      Fixture.insertion_row !! "#chrom" = Some (CStr chrom) ∧
      length (header t) = 10%nat ∧
      body t !! 0%nat = Some line ∧ length line = 10%nat ∧
      line !! Col.CHROM = Some (CStr chrom) ∧
      line !! Col.ID = Some (CStr ".") ∧
      line !! Col.QUAL = Some (CStr "30").
Proof.
  do 2 eexists. split; [vm_compute; reflexivity|].
  eapply (constant_columns Fixture.env "indel.bed" "ref.fa" "S1" "indel" []
            _ _ Fixture.indel_bed 0 Fixture.insertion_row);
    vm_compute; reflexivity.
Defined.

Lemma format_is_GT_witness :
  ∃ t events,
    simple_calls Fixture.env "indel.bed" "ref.fa" "S1" "indel" [] = (Ok t, events) ∧
    ∃ line,
      header t !! Col.FORMAT = Some "FORMAT"%string ∧
      body t !! 0%nat = Some line ∧ line !! Col.FORMAT = Some (CStr "GT").
Proof.
  do 2 eexists. split; [vm_compute; reflexivity|].
  eapply (format_is_GT Fixture.env "indel.bed" "ref.fa" "S1" "indel" []
            _ _ Fixture.indel_bed 0 Fixture.insertion_row).
  - by right.
  - vm_compute; reflexivity.
  - vm_compute; reflexivity.
  - vm_compute; reflexivity.
Defined.

Lemma missing_call_iff_no_hap_column_witness :
  ∃ t events,
    simple_calls Fixture2.env "sv.bed" "ref.fa" "S1" "sv" [] = (Ok t, events) ∧
    ∃ gt line,
      body t !! 0%nat = Some line ∧ line !! Col.GENOTYPE = Some (CStr gt) ∧
      (gt = "./."%string ↔ has_col "hap" Fixture2.sv_bed = false) ∧
      (gt = "./." ∨ gt = "1|0" ∨ gt = "0|1" ∨ gt = "1|1" ∨ gt = "1/1")%string.
Proof.
  do 2 eexists. split; [vm_compute; reflexivity|].
  eapply (missing_call_iff_no_hap_column Fixture2.env "sv.bed" "ref.fa" "S1" "sv" []
            _ _ Fixture2.sv_bed 0 Fixture2.phased_row).
  - by left.
  - vm_compute; reflexivity.
  - vm_compute; reflexivity.
  - vm_compute; reflexivity.
Defined.

Lemma sv_ref_is_base_at_start_witness :
  ∃ t events,
    simple_calls Fixture.env "sv.bed" "ref.fa" "S1" "sv" [] = (Ok t, events) ∧
    ∃ reference chrom contig z b line,
      fastas Fixture.env !! "ref.fa" = Some reference ∧
      Fixture.short_row !! "#chrom" = Some (CStr chrom) ∧
      reference !! chrom = Some contig ∧
      Fixture.short_row !! "tStart" = Some (CInt z) ∧
      String.get (Z.to_nat z) contig = Some b ∧
      body t !! 0%nat = Some line ∧
      line !! Col.REF = Some (CStr (String (PyStr.upper_ascii b) EmptyString)).
Proof.
  do 2 eexists. split; [vm_compute; reflexivity|].
  eapply (sv_ref_is_base_at_start Fixture.env "sv.bed" "ref.fa" "S1" []
            _ _ Fixture.sv_bed 0 Fixture.short_row);
    vm_compute; reflexivity.
Defined.

Lemma record_without_sequence_is_refused_witness :
  ∃ e,
    convert_bed_to_vcf Fixture2.env "bare.bed" "ref.fa" "out.vcf" "S1" "indel" []
      = (Raise e, [ReadTable "bare.bed"]) ∧
    (has_col "nAlt" Fixture2.bare_bed = false → 0%nat = 0%nat → e = KeyError "svSeq").
Proof.
  apply (record_without_sequence_is_refused Fixture2.env "bare.bed" "ref.fa" "out.vcf"
           "S1" "indel" [] Fixture2.bare_bed 0 Fixture2.bare_row).
  - right. by left.
  - vm_compute; reflexivity.
  - vm_compute; reflexivity.
  - vm_compute; reflexivity.
Defined.

Lemma inversion_record_keeps_table_format_witness :
  ∃ t events,
    simple_calls Fixture2.env "inversion.bed" "ref.fa" "S1" "inversion" []
      = (Ok t, events) ∧
    has_col "format" Fixture2.inversion_bed = true ∧
    has_col "genotype" Fixture2.inversion_bed = true ∧
    ∃ tEnd s svSeq n fmt gt line,
      Fixture2.inversion_row !! "tEnd" = Some tEnd ∧
      Fixture2.inversion_row !! "svType" = Some (CStr s) ∧
      Fixture2.inversion_row !! "svSeq" = Some svSeq ∧ Py.len (GetSeq svSeq) = Ok n ∧
      Fixture2.inversion_row !! "format" = Some fmt ∧
      Fixture2.inversion_row !! "genotype" = Some gt ∧
      body t !! 0%nat = Some line ∧
      line !! Col.ALT = Some (CStr "<INV>") ∧
      line !! Col.INFO =
        Some (CStr (PyStr.join ";"
          [ "END=" +:+ str Fixture2.env tEnd; "SVTYPE=" +:+ s;
            "SVLEN=" +:+ PyStr.of_int n; "SAMPLES=" +:+ "S1" ]%string)) ∧
      line !! Col.FORMAT = Some fmt ∧ line !! Col.GENOTYPE = Some gt.
Proof.
  do 2 eexists. split; [vm_compute; reflexivity|].
  eapply (inversion_record_keeps_table_format Fixture2.env "inversion.bed" "ref.fa"
            "S1" [] _ _ Fixture2.inversion_bed 0 Fixture2.inversion_row);
    vm_compute; reflexivity.
Defined.

Lemma text_coordinate_is_refused_witness :
  ∃ e, convert_bed_to_vcf Fixture2.env "text.bed" "ref.fa" "out.vcf" "S1" "sv" []
         = (Raise e, [ReadTable "text.bed"]).
Proof.
  apply (text_coordinate_is_refused Fixture2.env "text.bed" "ref.fa" "out.vcf" "S1"
           "sv" [] Fixture2.text_bed 0 Fixture2.text_row "tEnd" "chr1:9").
  - by left.
  - vm_compute; reflexivity.
  - vm_compute; reflexivity.
  - by right.
  - vm_compute; reflexivity.
  - reflexivity.
Defined.

Lemma other_indel_subtype_alleles_witness :
  ∃ t events,
    simple_calls Fixture2.env "capital.bed" "ref.fa" "S1" "indel" [] = (Ok t, events) ∧
    ∃ reference chrom contig z a b line,
      fastas Fixture2.env !! "ref.fa" = Some reference ∧
      Fixture2.capital_row !! "#chrom" = Some (CStr chrom) ∧
      reference !! chrom = Some contig ∧
      Fixture2.capital_row !! "tStart" = Some (CInt z) ∧
      String.get (Z.to_nat (z - 1)) contig = Some a ∧
      String.get (Z.to_nat z) contig = Some b ∧
      body t !! 0%nat = Some line ∧
      line !! Col.REF = Some (CStr (String (PyStr.upper_ascii b) EmptyString)) ∧
      line !! Col.ALT = Some (CStr (String (PyStr.upper_ascii a) EmptyString)).
Proof.
  do 2 eexists. split; [vm_compute; reflexivity|].
  eapply (other_indel_subtype_alleles Fixture2.env "capital.bed" "ref.fa" "S1" []
            _ _ Fixture2.capital_bed 0 Fixture2.capital_row "Insertion").
  - vm_compute; reflexivity.
  - vm_compute; reflexivity.
  - vm_compute; reflexivity.
  - vm_compute; reflexivity.
  - discriminate.
  - discriminate.
Defined.
